(** * Verification of scripts/file_processor.py

  A shallow embedding of the Markdown file renamer: the ID scanner
  [get_next_id], the file normaliser [process_folder] and the
  orchestrator [main], together with the parts of the Python runtime
  they call (str methods, the regular expression, [os], [shutil],
  [datetime], [print]).

  Modelling choices.
  - A Python [str] is a list of 8-bit characters read as the code points
    U+0000..U+00FF.  On that range [\d] is exactly [0-9], [str.lower]
    acts character by character, and [.] excludes only the line feed.
  - Python's [int] is [N] (the program only builds non-negative values).
  - The file system is a finite map from folder paths to nodes; a folder
    node carries its entries in listing order.  It may refuse a move
    (name too long, permission denied, I/O error), which [shutil.move]
    reports as [OSError].  The calls of [print] and the moves performed
    are recorded, in program order, in a trace.
  - Exceptions are values of [exn]; a computation is a function from the
    world to a result and the world it leaves behind. *)

From Stdlib Require Import NArith Ascii String DecimalString DecimalN.
From stdpp Require Import gmap strings list.

Set Warnings "-register-all".

Local Open Scope N_scope.

(** ** Strings *)

Abbreviation str := (list ascii).

(** A string literal of the source. *)
Definition py (s : string) : str := list_ascii_of_string s.

Module Str.

(** The line feed, U+000A. *)
Definition LF : ascii := "010"%char.

(** [s.endswith(suffix)] *)
Definition endswith (s suffix : str) : bool :=
  bool_decide (suffix `suffix_of` s).

(** [s.startswith(prefix)] *)
Definition startswith (s prefix : str) : bool :=
  bool_decide (prefix `prefix_of` s).

(** [s.replace(old, new)] for a non-empty [old]: occurrences are replaced
    from left to right and do not overlap.  [skip] counts the characters
    of the occurrence just replaced that are still to be passed over. *)
Fixpoint replace_from (old new : str) (skip : nat) (s : str) : str :=
  match s with
  | [] => []
  | c :: rest =>
      match skip with
      | S k => replace_from old new k rest
      | O =>
          if startswith s old
          then new ++ replace_from old new (length old - 1) rest
          else c :: replace_from old new 0 rest
      end
  end.

Definition replace (s old new : str) : str := replace_from old new 0 s.

Definition is_upper (c : ascii) : bool :=
  let n := N_of_ascii c in
  ((65 <=? n) && (n <=? 90))
  || ((192 <=? n) && (n <=? 222) && negb (n =? 215)).

(** [str.lower] on one code point below 256: A-Z and the Latin-1 capitals
    move up by 32, everything else stays. *)
Definition lower_char (c : ascii) : ascii :=
  if is_upper c then ascii_of_N (N_of_ascii c + 32) else c.

(** [s.lower()] *)
Definition lower (s : str) : str := map lower_char s.

(** [s.zfill]-style left padding with zeros, as the format [0<width>d]
    does. *)
Definition zero_pad (width : nat) (s : str) : str :=
  replicate (width - length s) "0"%char ++ s.

End Str.

(** ** Decimal numerals *)

Module Dec.

Fixpoint str_of_uint (d : Decimal.uint) : str :=
  match d with
  | Decimal.Nil => []
  | Decimal.D0 d => "0"%char :: str_of_uint d
  | Decimal.D1 d => "1"%char :: str_of_uint d
  | Decimal.D2 d => "2"%char :: str_of_uint d
  | Decimal.D3 d => "3"%char :: str_of_uint d
  | Decimal.D4 d => "4"%char :: str_of_uint d
  | Decimal.D5 d => "5"%char :: str_of_uint d
  | Decimal.D6 d => "6"%char :: str_of_uint d
  | Decimal.D7 d => "7"%char :: str_of_uint d
  | Decimal.D8 d => "8"%char :: str_of_uint d
  | Decimal.D9 d => "9"%char :: str_of_uint d
  end.

Fixpoint uint_of_str (s : str) : option Decimal.uint :=
  match s with
  | [] => Some Decimal.Nil
  | c :: rest => uint_of_char c (uint_of_str rest)
  end.

(** [str(n)] for a non-negative integer. *)
Definition decimal (n : N) : str := str_of_uint (N.to_uint n).

(** [f"{n:03d}"] and its siblings [%Y], [%m], [%d]. *)
Definition format_d (width : nat) (n : N) : str :=
  Str.zero_pad width (decimal n).

(** [int(s)] for [s] a non-empty run of decimal digits, the only shape
    [match.group(1)] takes; [None] stands for every other argument.
    (CPython refuses numerals of more than 4300 digits, far longer than
    any file name.) *)
Definition int_of_digits (s : str) : option N :=
  match s with
  | [] => None
  | _ => N.of_uint <$> uint_of_str s
  end.

End Dec.

(** ** The regular expression [^\d{4}-\d{2}-\d{2}-(\d+)-.*\.md$] *)

Module Re.

(** [\d] *)
Definition is_digit (c : ascii) : bool :=
  let n := N_of_ascii c in (48 <=? n) && (n <=? 57).

(** [.] (without DOTALL): anything but a line feed. *)
Definition is_dot (c : ascii) : bool := negb (N_of_ascii c =? 10).

(** [[a-z0-9-]], the complement of the class that [re.sub] deletes. *)
Definition is_slug_char (c : ascii) : bool :=
  let n := N_of_ascii c in
  ((97 <=? n) && (n <=? 122)) || is_digit c || (n =? 45).

(** [\d{n}] at the head of [s]; the rest of [s] on success. *)
Definition digits_n (n : nat) (s : str) : option str :=
  if (n <=? length s)%nat && forallb is_digit (take n s)
  then Some (drop n s) else None.

(** A literal character at the head of [s]. *)
Definition lit (c : ascii) (s : str) : option str :=
  match s with
  | c' :: rest => if Ascii.eqb c c' then Some rest else None
  | [] => None
  end.

(** [\d+] at the head of [s]: the longest run of digits and what follows
    it.  The run is followed by a hyphen in the pattern, which no digit
    matches, so the greedy choice is the only one that can succeed. *)
Fixpoint digits_run (s : str) : str * str :=
  match s with
  | c :: rest =>
      if is_digit c
      then let '(run, tl) := digits_run rest in (c :: run, tl)
      else ([], s)
  | [] => ([], [])
  end.

(** [.*\.md$]: [$] holds at the end of the string and also just before a
    line feed that ends it; what precedes [.md] has no line feed. *)
Definition title_md_end (s : str) : bool :=
  let body := if Str.endswith s [Str.LF] then removelast s else s in
  Str.endswith body (py ".md")
  && forallb is_dot (take (length body - 3) body).

(** [pattern.match(filename)]: [Some] of group 1 when the name matches. *)
Definition match_valid (filename : str) : option str :=
  s ← digits_n 4 filename;
  s ← lit "-" s;
  s ← digits_n 2 s;
  s ← lit "-" s;
  s ← digits_n 2 s;
  s ← lit "-" s;
  let '(group1, s) := digits_run s in
  if bool_decide (group1 = []) then None else
  s ← lit "-" s;
  if title_md_end s then Some group1 else None.

(** [re.sub(r'[^a-z0-9-]', '', s)] *)
Definition sub_non_slug (s : str) : str := List.filter is_slug_char s.

End Re.

(** ** Dates *)

(** The value of [datetime.date.today()]. *)
Record date := Date { year : N; month : N; day : N }.

(** A calendar date with a four-digit year, where [%Y] is four digits on
    every platform. *)
Definition valid_date (d : date) : Prop :=
  1000 <= year d <= 9999 /\ 1 <= month d <= 12 /\ 1 <= day d <= 31.

(** [d.strftime('%Y-%m-%d')] *)
Definition strftime_Ymd (d : date) : str :=
  Dec.format_d 4 (year d) ++ py "-" ++ Dec.format_d 2 (month d)
  ++ py "-" ++ Dec.format_d 2 (day d).

(** ** The file system, standard output and exceptions *)

(** A directory entry is a regular file or a folder with its own entries,
    kept in the order [os.listdir] reports them. *)
Inductive node :=
| File (data : str)
| Dir (entries : list (str * node)).

Abbreviation entries := (list (str * node)).

(** What the program does to the outside, in program order: a call of
    [print] with its text, a move that took effect. *)
Inductive event :=
| Stdout (line : str)
| Moved (folder old new : str).

Inductive exn :=
| FileNotFoundError
| NotADirectoryError
| FileExistsError
| ShutilError
| OSError
| ValueError.

Record world := World {
  w_fs : gmap str node;          (* folder path -> node *)
  w_dates : nat -> date;         (* the local date at each successive call *)
  w_tick : nat;                  (* calls of [date.today] made so far *)
  w_refuses : str -> str -> str -> bool;
                                 (* folder, old, new: the move is refused *)
  w_trace : list event           (* output and moves, oldest first *)
}.

Inductive result (A : Type) :=
| Ok (a : A)
| Raise (e : exn).
Arguments Ok {A} a.
Arguments Raise {A} e.

Definition M (A : Type) : Type := world -> result A * world.

#[export] Instance M_ret : MRet M := fun A a w => (Ok a, w).

#[export] Instance M_bind : MBind M := fun A B f m w =>
  match m w with
  | (Ok a, w') => f a w'
  | (Raise e, w') => (Raise e, w')
  end.

Definition raise {A} (e : exn) : M A := fun w => (Raise e, w).

Definition set_fs (fs : gmap str node) (w : world) : world :=
  World fs (w_dates w) (w_tick w) (w_refuses w) (w_trace w).

Definition emit (e : event) (w : world) : world :=
  World (w_fs w) (w_dates w) (w_tick w) (w_refuses w) (w_trace w ++ [e]).

Module Entries.

Definition names (es : entries) : list str := es.*1.

Fixpoint lookup (name : str) (es : entries) : option node :=
  match es with
  | [] => None
  | (n, x) :: rest => if decide (n = name) then Some x else lookup name rest
  end.

(** Give the first entry called [old] the name [new].  The entry stays
    where it is in the list: the order in which [os.listdir] reports a
    folder after a rename is not fixed, this is one of the possible ones,
    and the statements below speak of membership, not of positions. *)
Fixpoint rename (old new : str) (es : entries) : entries :=
  match es with
  | [] => []
  | (n, x) :: rest =>
      if decide (n = old) then (new, x) :: rest
      else (n, x) :: rename old new rest
  end.

Fixpoint remove (name : str) (es : entries) : entries :=
  match es with
  | [] => []
  | (n, x) :: rest =>
      if decide (n = name) then rest else (n, x) :: remove name rest
  end.

(** Replace the node of the first entry called [name]. *)
Fixpoint update (name : str) (x' : node) (es : entries) : entries :=
  match es with
  | [] => []
  | (n, x) :: rest =>
      if decide (n = name) then (n, x') :: rest
      else (n, x) :: update name x' rest
  end.

End Entries.

(** [print(line)] *)
Definition print (line : str) : M unit := fun w => (Ok tt, emit (Stdout line) w).

(** [datetime.date.today()] *)
Definition date_today : M date := fun w =>
  (Ok (w_dates w (w_tick w)),
   World (w_fs w) (w_dates w) (S (w_tick w)) (w_refuses w) (w_trace w)).

Module os.

(** [os.path.exists(path)] *)
Definition path_exists (path : str) : M bool := fun w =>
  (Ok (bool_decide (is_Some (w_fs w !! path))), w).

(** [os.listdir(path)] *)
Definition listdir (path : str) : M (list str) := fun w =>
  match w_fs w !! path with
  | Some (Dir es) => (Ok (Entries.names es), w)
  | Some (File _) => (Raise NotADirectoryError, w)
  | None => (Raise FileNotFoundError, w)
  end.

End os.

Module shutil.

(** What [shutil.move(src, dst)] does to the entries [es] of the folder that
    holds both [src = folder/old] and [dst = folder/new]:
    - [dst] is an existing folder: [src] goes inside it, unless an entry of
      that name is already there ([shutil.Error]);
    - otherwise [os.rename]: a missing [src] raises, a regular file replaces
      an existing regular file [dst], a folder cannot replace one. *)
Definition move_entries (old new : str) (es : entries) : result entries :=
  match Entries.lookup new es with
  | Some (Dir sub) =>
      if decide (old = new) then Ok es
      else if bool_decide (is_Some (Entries.lookup old sub)) then Raise ShutilError
      else
        match Entries.lookup old es with
        | None => Raise FileNotFoundError
        | Some x =>
            Ok (Entries.update new (Dir (sub ++ [(old, x)])) (Entries.remove old es))
        end
  | Some (File _) =>
      match Entries.lookup old es with
      | None => Raise FileNotFoundError
      | Some (Dir _) => Raise FileExistsError
      | Some (File _) =>
          if decide (old = new) then Ok es
          else Ok (Entries.rename old new (Entries.remove new es))
      end
  | None =>
      match Entries.lookup old es with
      | None => Raise FileNotFoundError
      | Some _ => Ok (Entries.rename old new es)
      end
  end.

(** [shutil.move(os.path.join(folder, old), os.path.join(folder, new))]:
    when the file system refuses the move, [os.rename] and the copy that
    [shutil.move] then tries both fail, and the [OSError] reaches the
    caller with nothing changed. *)
Definition move (folder old new : str) : M unit := fun w =>
  match w_fs w !! folder with
  | Some (Dir es) =>
      if w_refuses w folder old new then (Raise OSError, w) else
      match move_entries old new es with
      | Ok es' => (Ok tt, emit (Moved folder old new) (set_fs (<[folder := Dir es']> (w_fs w)) w))
      | Raise e => (Raise e, w)
      end
  | Some (File _) => (Raise NotADirectoryError, w)
  | None => (Raise FileNotFoundError, w)
  end.

End shutil.

(** ** The program *)

Definition TARGET_FOLDERS : list str := [py "projects"; py "templates"].

(** [valid_pattern.match(filename)] as a truth value. *)
Definition conforming (filename : str) : bool :=
  bool_decide (is_Some (Re.match_valid filename)).

(** [int(match.group(1))] of a name, when the name matches. *)
Definition embedded_id (filename : str) : option N :=
  Re.match_valid filename ≫= Dec.int_of_digits.

(** The [for] loop of [get_next_id], with [max_id] as the loop variable. *)
Fixpoint scan_ids (names : list str) (max_id : N) : M N :=
  match names with
  | [] => mret max_id
  | filename :: rest =>
      match Re.match_valid filename with
      | Some group1 =>
          match Dec.int_of_digits group1 with
          | Some current_id =>
              scan_ids rest (if max_id <? current_id then current_id else max_id)
          | None => raise ValueError
          end
      | None => scan_ids rest max_id
      end
  end.

Definition get_next_id (destination_dir : str) : M N :=
  found ← os.path_exists destination_dir;
  if negb found then mret 1 else
  names ← os.listdir destination_dir;
  max_id ← scan_ids names 0;
  mret (max_id + 1).

(** The [for] loop of [process_folder], with [next_id] as the loop variable;
    the value returned is [next_id] when the loop ends. *)
Fixpoint rename_loop (folder_path : str) (names : list str) (next_id : N) : M N :=
  match names with
  | [] => mret next_id
  | filename :: rest =>
      if negb (Str.endswith filename (py ".md")) then
        rename_loop folder_path rest next_id
      else if conforming filename then
        rename_loop folder_path rest next_id
      else
        today ← date_today;
        let today := strftime_Ymd today in
        let id_str := Dec.format_d 3 next_id in
        let clean_title :=
          Str.replace (Str.lower (Str.replace filename (py ".md") [])) (py " ") (py "-") in
        let clean_title := Re.sub_non_slug clean_title in
        let new_filename :=
          today ++ py "-" ++ id_str ++ py "-" ++ clean_title ++ py ".md" in
        _ ← print (py "Renaming " ++ filename ++ py " -> " ++ new_filename);
        _ ← shutil.move folder_path filename new_filename;
        rename_loop folder_path rest (next_id + 1)
  end.

Definition process_folder (folder_path : str) : M unit :=
  _ ← print (py "Scanning " ++ folder_path ++ py "...");
  found ← os.path_exists folder_path;
  if negb found then mret tt else
  next_id ← get_next_id folder_path;
  names ← os.listdir folder_path;
  _ ← rename_loop folder_path names next_id;
  mret tt.

(** [for folder in folders: process_folder(folder)] *)
Fixpoint process_folders (folders : list str) : M unit :=
  match folders with
  | [] => mret tt
  | folder :: rest => _ ← process_folder folder; process_folders rest
  end.

Definition main : M unit := process_folders TARGET_FOLDERS.

(** ** Derived notions used by the statements *)

(** The slug transform, which the loop applies to the name without its
    [.md]: [s.lower().replace(' ', '-')] followed by
    [re.sub(r'[^a-z0-9-]', '', ...)]. *)
Definition slug (s : str) : str :=
  Re.sub_non_slug (Str.replace (Str.lower s) (py " ") (py "-")).

(** The final value of the loop's variable [clean_title]. *)
Definition clean_title (filename : str) : str :=
  slug (Str.replace filename (py ".md") []).

(** The value of the loop's variable [new_filename], given the formatted
    date and the counter. *)
Definition new_filename (today : str) (next_id : N) (filename : str) : str :=
  today ++ py "-" ++ Dec.format_d 3 next_id ++ py "-" ++ clean_title filename ++ py ".md".

(** A name passes both [continue] guards of the loop of [process_folder]:
    it ends in [.md] and is not already valid. *)
Definition needs_rename (filename : str) : bool :=
  Str.endswith filename (py ".md") && negb (conforming filename).

(** The value [get_next_id] computes from a listing. *)
Definition next_free (names : list str) : N :=
  foldr N.max 0 (omap embedded_id names) + 1.

(** The renames the loop of [process_folder] decides on, given the dates
    it reads: old name, ID and new name, in enumeration order. *)
Fixpoint planned (dates : nat -> date) (tick : nat) (names : list str)
    (next_id : N) : list (str * N * str) :=
  match names with
  | [] => []
  | filename :: rest =>
      if needs_rename filename then
        (filename, next_id,
         new_filename (strftime_Ymd (dates tick)) next_id filename)
        :: planned dates (S tick) rest (next_id + 1)
      else planned dates tick rest next_id
  end.

(** The planned renames that are carried out: those before the first one
    the file system refuses. *)
Fixpoint carried (refuses : str -> str -> bool) (plan : list (str * N * str))
    : list (str * N * str) :=
  match plan with
  | [] => []
  | p :: rest => if refuses p.1.1 p.2 then [] else p :: carried refuses rest
  end.

(** No planned rename is refused. *)
Definition loop_ok (refuses : str -> str -> bool) (plan : list (str * N * str)) : bool :=
  forallb (fun p => negb (refuses p.1.1 p.2)) plan.

(** The calls of [date.today] the loop makes: one per rename it attempts. *)
Fixpoint loop_ticks (refuses : str -> str -> bool) (plan : list (str * N * str)) : nat :=
  match plan with
  | [] => O
  | p :: rest => S (if refuses p.1.1 p.2 then O else loop_ticks refuses rest)
  end.

(** The entries of a folder once the renames carried out are done. *)
Fixpoint relabel (refuses : str -> str -> bool) (dates : nat -> date) (tick : nat)
    (es : entries) (next_id : N) : entries :=
  match es with
  | [] => []
  | (filename, x) :: rest =>
      if needs_rename filename then
        if refuses filename (new_filename (strftime_Ymd (dates tick)) next_id filename)
        then (filename, x) :: rest
        else (new_filename (strftime_Ymd (dates tick)) next_id filename, x)
             :: relabel refuses dates (S tick) rest (next_id + 1)
      else (filename, x) :: relabel refuses dates tick rest next_id
  end.

Definition scanning_line (folder : str) : str :=
  py "Scanning " ++ folder ++ py "...".

Definition renaming_line (old new : str) : str :=
  py "Renaming " ++ old ++ py " -> " ++ new.

(** What one rename leaves in the trace: its progress line, then the move. *)
Definition rename_events (folder : str) (r : str * str) : list event :=
  [Stdout (renaming_line r.1 r.2); Moved folder r.1 r.2].

(** What the loop leaves in the trace: for each rename its progress line
    and then the move, up to and including the line of the first rename
    that is refused. *)
Fixpoint loop_trace (folder : str) (refuses : str -> str -> bool)
    (plan : list (str * N * str)) : list event :=
  match plan with
  | [] => []
  | p :: rest =>
      Stdout (renaming_line p.1.1 p.2)
      :: (if refuses p.1.1 p.2 then []
          else Moved folder p.1.1 p.2 :: loop_trace folder refuses rest)
  end.

(** What processing one folder leaves in the trace: the [Scanning] line,
    the renames done, each with its line, and the line of a last rename
    that failed, if one did. *)
Definition folder_events (fr : str * list (str * str) * option (str * str)) : list event :=
  Stdout (scanning_line fr.1.1)
  :: (fr.1.2 ≫= rename_events fr.1.1)
  ++ match fr.2 with
     | Some r => [Stdout (renaming_line r.1 r.2)]
     | None => []
     end.

(** The moves recorded in a piece of trace, as (old, new) pairs. *)
Definition moves (evs : list event) : list (str * str) :=
  omap (fun e => match e with Moved _ old new => Some (old, new) | Stdout _ => None end) evs.

(** The lines written to standard output in a piece of trace. *)
Definition stdout (evs : list event) : list str :=
  omap (fun e => match e with Stdout line => Some line | Moved _ _ _ => None end) evs.

(** Modelled on the words of the specification, for comparison with
    [clean_title]: strip only the trailing [.md], then apply the slug
    transform. *)
Definition spec_title (filename : str) : str :=
  slug (if Str.endswith filename (py ".md")
        then take (length filename - 3) filename else filename).

(** The number of lines one call of [print] writes: one more than the
    line feeds in its text. *)
Definition lines_of (text : str) : nat :=
  S (length (List.filter (fun c => Ascii.eqb c Str.LF) text)).

(** Modelled on the words of the specification: a decimal digit. *)
Definition decimal_digit (c : ascii) : Prop := c ∈ py "0123456789".

(** Modelled on the words of the specification: [filename] is conforming
    and [id] is the ID embedded in it.  The name is exactly
    YYYY-MM-DD-ID-title.md, where YYYY-MM-DD is groups of four, two and two
    digits separated by hyphens, ID is one or more decimal digits, and
    title is any sequence of characters up to the [.md] suffix. *)
Definition spec_conforming (filename : str) (id : N) : Prop :=
  ∃ y m d g title,
    filename = y ++ py "-" ++ m ++ py "-" ++ d ++ py "-" ++ g ++ py "-"
               ++ title ++ py ".md"
    ∧ length y = 4%nat ∧ Forall decimal_digit y
    ∧ length m = 2%nat ∧ Forall decimal_digit m
    ∧ length d = 2%nat ∧ Forall decimal_digit d
    ∧ g ≠ [] ∧ Forall decimal_digit g
    ∧ Dec.int_of_digits g = Some id.

(** No name of the listing holds a line feed. *)
Definition lf_free (names : list str) : Prop :=
  Forall (fun name => Str.LF ∉ name) names.

(** ** Worked inputs *)

Definition example_date : date := Date 2026 11 4.

(** A file system whose names hold at most 255 characters. *)
Definition name_too_long (folder old new : str) : bool := (255 <? length new)%nat.

Definition scenario_A : entries :=
  [(py "2024-01-01-005-hello.md", File (py "hello"));
   (py "My Notes.md", File (py "notes"));
   (py "todo.txt", File [])].
Definition example_world : world :=
  World {[ py "projects" := Dir scenario_A ]} (fun _ => example_date) 0 name_too_long [].

Definition blocked_world : world :=
  World {[ py "projects" := File (py "not a folder");
           py "templates" := Dir [(py "draft.md", File [])] ]}
        (fun _ => example_date) 0 name_too_long [].

(** Two target folders; the date changes after the first call of
    [date.today]. *)
Definition two_folder_world : world :=
  World {[ py "projects" := Dir scenario_A;
           py "templates" := Dir [(py "Weekly Report.md", File (py "r"));
                                  (py "2025-03-09-41-plan.md", File [])] ]}
        (fun t => match t with O => Date 2026 11 4 | S _ => Date 2026 11 5 end) 0
        name_too_long [].

(** The second target is a regular file. *)
Definition half_blocked_world : world :=
  World {[ py "projects" := Dir scenario_A;
           py "templates" := File (py "not a folder") ]}
        (fun _ => example_date) 0 name_too_long [].

(** A folder with nothing to rename. *)
Definition tidy_world : world :=
  World {[ py "projects" := Dir [(py "2024-01-01-005-hello.md", File []);
                                 (py "todo.txt", File []);
                                 (py "NOTES.MD", File [])] ]}
        (fun _ => example_date) 0 name_too_long [].

(** A name that fits the pattern of the specification, with ID 12 and a
    line feed in its title. *)
Definition lf_name : str := py "2024-01-01-12-a" ++ [Str.LF] ++ py "b.md".

Definition lf_world : world :=
  World {[ py "projects" := Dir [(lf_name, File (py "n"))] ]}
        (fun _ => example_date) 0 name_too_long [].

(** A name that ends in a line feed after its [.md]. *)
Definition lf_tail_name : str := py "2024-01-01-12-.md" ++ [Str.LF].

Definition lf_tail_world : world :=
  World {[ py "projects" := Dir [(lf_tail_name, File (py "n"))] ]}
        (fun _ => example_date) 0 name_too_long [].


(** A name of 253 characters; its new name would have 268. *)
Definition long_name : str := replicate 250 "a"%char ++ py ".md".

Definition long_world : world :=
  World {[ py "projects" := Dir [(long_name, File (py "n"))] ]}
        (fun _ => example_date) 0 name_too_long [].


(** The [len] integers from [n] on. *)
Definition arith (n : N) (len : nat) : list N :=
  (fun i => n + N.of_nat i) <$> seq 0 len.

(** * Checks on concrete inputs *)

Example match_valid_ex1 :
  Re.match_valid (py "2024-01-01-005-hello.md") = Some (py "005").
Proof. vm_compute. reflexivity. Qed.

Example match_valid_ex2 : Re.match_valid (py "My Notes.md") = None.
Proof. vm_compute. reflexivity. Qed.

(** [$] also holds before a final line feed. *)
Example match_valid_ex3 :
  Re.match_valid (py "2024-01-01-12-.md" ++ [Str.LF]) = Some (py "12").
Proof. vm_compute. reflexivity. Qed.

(** [.] does not match a line feed. *)
Example match_valid_ex4 :
  Re.match_valid (py "2024-01-01-12-a" ++ [Str.LF] ++ py "b.md") = None.
Proof. vm_compute. reflexivity. Qed.

(** Five digits where the year is expected. *)
Example match_valid_ex5 : Re.match_valid (py "20240-01-01-12-a.md") = None.
Proof. vm_compute. reflexivity. Qed.

Example replace_ex1 : Str.replace (py "a.mdb.md") (py ".md") [] = py "ab".
Proof. vm_compute. reflexivity. Qed.

Example replace_ex2 : Str.replace (py "a  b") (py " ") (py "-") = py "a--b".
Proof. vm_compute. reflexivity. Qed.

Example format_ex :
  Dec.format_d 3 7 = py "007" /\ Dec.format_d 3 1234 = py "1234"
  /\ strftime_Ymd example_date = py "2026-11-04".
Proof. vm_compute. auto. Qed.

Example clean_title_ex :
  clean_title (py "My  Notes!.md") = py "my--notes"
  /\ clean_title (py "B!! .md") = py "b-".
Proof. vm_compute. auto. Qed.

(** The first scenario of the specification: the scanner returns 6 and
    [My Notes.md] becomes [2026-11-04-006-my-notes.md]. *)
Example scenario_A_run :
  (get_next_id (py "projects") example_world).1 = Ok 6
  /\ (process_folder (py "projects") example_world).1 = Ok tt
  /\ w_fs (process_folder (py "projects") example_world).2 !! py "projects"
     = Some (Dir [(py "2024-01-01-005-hello.md", File (py "hello"));
                  (py "2026-11-04-006-my-notes.md", File (py "notes"));
                  (py "todo.txt", File [])])
  /\ stdout (w_trace (process_folder (py "projects") example_world).2)
     = [py "Scanning projects...";
        py "Renaming My Notes.md -> 2026-11-04-006-my-notes.md"].
Proof. vm_compute. auto. Qed.

(** A destination that is an existing folder takes the source inside; an
    existing regular file is replaced. *)
Example move_entries_ex :
  shutil.move_entries (py "a") (py "d") [(py "a", File (py "1")); (py "d", Dir [])]
  = Ok [(py "d", Dir [(py "a", File (py "1"))])]
  /\ shutil.move_entries (py "a") (py "b") [(py "a", File (py "1")); (py "b", File (py "2"))]
     = Ok [(py "b", File (py "1"))].
Proof. vm_compute. auto. Qed.

(** A new name of 268 characters is refused: the run stops after the
    message of that rename, and nothing is moved. *)
Example long_name_run :
  length long_name = 253%nat
  /\ (process_folder (py "projects") long_world).1 = Raise OSError
  /\ w_fs (process_folder (py "projects") long_world).2 = w_fs long_world
  /\ length (stdout (w_trace (process_folder (py "projects") long_world).2)) = 2%nat
  /\ moves (w_trace (process_folder (py "projects") long_world).2) = [].
Proof. vm_compute. auto. Qed.

(** A name with a line feed inside its title is not matched: the scanner
    does not count its ID and the loop renames it. *)
Example lf_name_run :
  conforming lf_name = false
  /\ (get_next_id (py "projects") lf_world).1 = Ok 1
  /\ moves (w_trace (process_folder (py "projects") lf_world).2)
     = [(lf_name, py "2026-11-04-001-2024-01-01-12-ab.md")]
  /\ lines_of (renaming_line lf_name (py "2026-11-04-001-2024-01-01-12-ab.md")) = 2%nat.
Proof. vm_compute. auto. Qed.

(** A name that ends in a line feed after its [.md] is matched, and is
    not a candidate for renaming. *)
Example lf_tail_name_run :
  conforming lf_tail_name = true
  /\ needs_rename lf_tail_name = false
  /\ (get_next_id (py "projects") lf_tail_world).1 = Ok 13.
Proof. vm_compute. auto. Qed.

(** * Strings, numerals and the pattern *)

Ltac ascii_cases c := destruct c as [[] [] [] [] [] [] [] []].

Section Strings.

Lemma endswith_true (s suffix : str) :
  Str.endswith s suffix = true ↔ ∃ t, s = t ++ suffix.
Proof. unfold Str.endswith. rewrite bool_decide_eq_true. reflexivity. Qed.

Lemma endswith_app (t suffix : str) : Str.endswith (t ++ suffix) suffix = true.
Proof. apply endswith_true. eauto. Qed.

Lemma startswith_cons1 (c a : ascii) (rest : str) :
  Str.startswith (c :: rest) [a] = bool_decide (c = a).
Proof.
  unfold Str.startswith. apply bool_decide_ext. split.
  - intros [k Hk]. simpl in Hk. congruence.
  - intros ->. exists rest. reflexivity.
Qed.

(** Replacing a one-character [old] is a character-wise map. *)
Lemma replace_char (a b : ascii) (s : str) :
  Str.replace s [a] [b] = map (fun c => if decide (c = a) then b else c) s.
Proof.
  unfold Str.replace. induction s as [|c rest IH]; [reflexivity|].
  cbn [Str.replace_from map length]. rewrite startswith_cons1.
  change (1 - 1)%nat with 0%nat. rewrite IH. destruct (decide (c = a)) as [->|Hne].
  - rewrite bool_decide_eq_true_2 by done. reflexivity.
  - rewrite bool_decide_eq_false_2 by done. reflexivity.
Qed.

End Strings.

Section Digits.

Lemma is_digit_uint (c : ascii) (d : Decimal.uint) :
  Re.is_digit c = true → is_Some (uint_of_char c (Some d)).
Proof. ascii_cases c; vm_compute; intros H; try discriminate H; eauto. Qed.

Lemma uint_of_str_digits (s : str) :
  forallb Re.is_digit s = true → is_Some (Dec.uint_of_str s).
Proof.
  induction s as [|c rest IH]; simpl; [eauto|].
  intros [Hc Hrest]%andb_prop. destruct (IH Hrest) as [d ->].
  by apply is_digit_uint.
Qed.

Lemma int_of_digits_digits (s : str) :
  s ≠ [] → forallb Re.is_digit s = true → is_Some (Dec.int_of_digits s).
Proof.
  intros Hne Hs. destruct (uint_of_str_digits s Hs) as [d Hd].
  destruct s; [done|]. unfold Dec.int_of_digits. rewrite Hd. eauto.
Qed.

Lemma str_of_uint_digits (d : Decimal.uint) :
  forallb Re.is_digit (Dec.str_of_uint d) = true.
Proof. induction d; simpl; auto. Qed.

Lemma uint_of_str_of_uint (d : Decimal.uint) :
  Dec.uint_of_str (Dec.str_of_uint d) = Some d.
Proof. induction d; simpl; [done|..]; rewrite IHd; reflexivity. Qed.

Lemma uint_of_str_zeros (k : nat) (s : str) :
  N.of_uint <$> Dec.uint_of_str (replicate k "0"%char ++ s)
  = N.of_uint <$> Dec.uint_of_str s.
Proof.
  induction k as [|k IH]; [reflexivity|].
  cbn [replicate app Dec.uint_of_str]. 
  destruct (Dec.uint_of_str (replicate k "0"%char ++ s)) as [d|] eqn:E;
  destruct (Dec.uint_of_str s) as [d'|] eqn:E'; simpl in *; try congruence.
Qed.

Lemma decimal_nonempty (n : N) : Dec.decimal n ≠ [].
Proof.
  unfold Dec.decimal. intros H.
  assert (N.to_uint n = Decimal.Nil) as Hnil by (destruct (N.to_uint n); done).
  pose proof (DecimalN.Unsigned.of_to n) as Hn. rewrite Hnil in Hn.
  subst n. discriminate Hnil.
Qed.

Lemma decimal_digits (n : N) : forallb Re.is_digit (Dec.decimal n) = true.
Proof. apply str_of_uint_digits. Qed.

Lemma int_of_decimal (n : N) : Dec.int_of_digits (Dec.decimal n) = Some n.
Proof.
  pose proof (decimal_nonempty n) as Hne. unfold Dec.int_of_digits.
  destruct (Dec.decimal n) eqn:E; [done|]. rewrite <- E. unfold Dec.decimal.
  rewrite uint_of_str_of_uint. simpl. by rewrite DecimalN.Unsigned.of_to.
Qed.

Lemma format_d_digits (width : nat) (n : N) :
  forallb Re.is_digit (Dec.format_d width n) = true.
Proof.
  unfold Dec.format_d, Str.zero_pad. rewrite forallb_app, decimal_digits, andb_true_r.
  induction (width - length (Dec.decimal n))%nat; simpl; auto.
Qed.

Lemma format_d_nonempty (width : nat) (n : N) : Dec.format_d width n ≠ [].
Proof.
  unfold Dec.format_d, Str.zero_pad. intros [_ H]%app_eq_nil.
  by apply decimal_nonempty in H.
Qed.

Lemma int_of_format_d (width : nat) (n : N) :
  Dec.int_of_digits (Dec.format_d width n) = Some n.
Proof.
  pose proof (format_d_nonempty width n) as Hne. unfold Dec.int_of_digits.
  destruct (Dec.format_d width n) eqn:E; [done|]. rewrite <- E.
  unfold Dec.format_d, Str.zero_pad. rewrite uint_of_str_zeros.
  pose proof (int_of_decimal n) as Hd. unfold Dec.int_of_digits in Hd.
  destruct (Dec.decimal n); [done|]. exact Hd.
Qed.

Lemma format_d_length_ge (width : nat) (n : N) :
  (width ≤ length (Dec.format_d width n))%nat.
Proof.
  unfold Dec.format_d, Str.zero_pad. rewrite length_app, length_replicate. lia.
Qed.

End Digits.

Section Magnitude.

Import DecimalPos.Unsigned.

Lemma usize_revapp d d' : usize (Decimal.revapp d d') = usize d + usize d'.
Proof. revert d'. induction d; intros d'; simpl; [done|..]; rewrite IHd; simpl; lia. Qed.

Lemma of_lu_bound d : of_lu d < 10 ^ usize d.
Proof.
  induction d; simpl of_lu; simpl usize; [done|..];
  rewrite N.pow_succ_r'; lia.
Qed.

Lemma usize_length d : usize d = N.of_nat (length (Dec.str_of_uint d)).
Proof. induction d; simpl usize; simpl length; [done|..]; rewrite IHd; lia. Qed.

Lemma of_uint_bound d : N.of_uint d < 10 ^ N.of_nat (length (Dec.str_of_uint d)).
Proof.
  unfold N.of_uint. rewrite of_uint_alt, <- usize_length.
  pose proof (of_lu_bound (Decimal.rev d)) as H. unfold Decimal.rev in *.
  rewrite usize_revapp in H. simpl in H. by rewrite N.add_0_r in H.
Qed.

(** A number is below ten to the number of its decimal digits. *)
Lemma decimal_bound (n : N) : n < 10 ^ N.of_nat (length (Dec.decimal n)).
Proof.
  unfold Dec.decimal. pose proof (of_uint_bound (N.to_uint n)) as H.
  by rewrite DecimalN.Unsigned.of_to in H.
Qed.

Lemma decimal_long (width : nat) (n : N) :
  10 ^ N.of_nat width <= n → (width < length (Dec.decimal n))%nat.
Proof.
  intros Hn. pose proof (decimal_bound n) as Hb.
  destruct (decide (width < length (Dec.decimal n))%nat) as [|Hle]; [done|].
  exfalso. assert (10 ^ N.of_nat (length (Dec.decimal n)) <= 10 ^ N.of_nat width).
  { apply N.pow_le_mono_r; lia. }
  lia.
Qed.

Lemma format_d_wide (width : nat) (n : N) :
  10 ^ N.of_nat width <= n → Dec.format_d width n = Dec.decimal n.
Proof.
  intros Hn%decimal_long. unfold Dec.format_d, Str.zero_pad.
  replace (width - length (Dec.decimal n))%nat with 0%nat by lia. reflexivity.
Qed.

Lemma bounded_check (P : N → bool) (b : nat) :
  forallb (fun k => P (N.of_nat k)) (seq 0 b) = true →
  ∀ n, n < N.of_nat b → P n = true.
Proof.
  intros H n Hn. rewrite forallb_forall in H.
  specialize (H (N.to_nat n)). rewrite N2Nat.id in H. apply H.
  apply in_seq. lia.
Qed.

Lemma format_d_length (width : nat) (n : N) :
  (width = 2 ∨ width = 3 ∨ width = 4)%nat → n < 10 ^ N.of_nat width →
  length (Dec.format_d width n) = width.
Proof.
  intros Hw Hn.
  assert (Nat.eqb (length (Dec.format_d width n)) width = true) as H;
    [|by apply Nat.eqb_eq in H].
  destruct Hw as [->|[->| ->]];
    [ apply (bounded_check (fun n => Nat.eqb (length (Dec.format_d 2 n)) 2) 100)
    | apply (bounded_check (fun n => Nat.eqb (length (Dec.format_d 3 n)) 3) 1000)
    | apply (bounded_check (fun n => Nat.eqb (length (Dec.format_d 4 n)) 4) (100 * 100)) ];
    try (vm_compute; reflexivity); exact Hn.
Qed.

End Magnitude.

Section Regex.

Lemma digits_n_app (n : nat) (p r : str) :
  length p = n → forallb Re.is_digit p = true → Re.digits_n n (p ++ r) = Some r.
Proof.
  intros <- Hp. unfold Re.digits_n.
  rewrite take_app_length, drop_app_length, Hp, length_app.
  rewrite (proj2 (Nat.leb_le _ _)) by lia. reflexivity.
Qed.

Lemma lit_cons (c : ascii) (r : str) : Re.lit c (c :: r) = Some r.
Proof. simpl. by rewrite Ascii.eqb_refl. Qed.

Lemma digits_run_app (g r : str) :
  forallb Re.is_digit g = true →
  match r with [] => True | c :: _ => Re.is_digit c = false end →
  Re.digits_run (g ++ r) = (g, r).
Proof.
  intros Hg Hr. induction g as [|c g IH]; cbn [app Re.digits_run].
  - destruct r as [|c r]; [done|]. cbn [Re.digits_run]. by rewrite Hr.
  - cbn [forallb] in Hg. apply andb_prop in Hg as [-> Hg]. by rewrite (IH Hg).
Qed.

Lemma digits_run_digits (s : str) : forallb Re.is_digit (Re.digits_run s).1 = true.
Proof.
  induction s as [|c s IH]; cbn [Re.digits_run]; [done|].
  destruct (Re.is_digit c) eqn:Hc; [|done].
  destruct (Re.digits_run s) as [run tl]. cbn [fst forallb] in *. by rewrite Hc.
Qed.

Lemma not_endswith_lf (t : str) : Str.endswith (t ++ py ".md") [Str.LF] = false.
Proof.
  apply not_true_is_false. intros [k Hk]%endswith_true.
  change (py ".md") with ([("."%char)] ++ ["m"%char] ++ ["d"%char]) in Hk.
  rewrite !app_assoc in Hk. apply app_inj_tail in Hk as [_ Hk]. discriminate Hk.
Qed.

Lemma title_md_end_intro (t e : str) :
  forallb Re.is_dot t = true → e = [] ∨ e = [Str.LF] →
  Re.title_md_end (t ++ py ".md" ++ e) = true.
Proof.
  intros Ht He. unfold Re.title_md_end.
  assert ((if Str.endswith (t ++ py ".md" ++ e) [Str.LF]
           then removelast (t ++ py ".md" ++ e) else t ++ py ".md" ++ e)
          = t ++ py ".md") as ->.
  { destruct He as [-> | ->].
    - rewrite app_nil_r. by rewrite not_endswith_lf.
    - rewrite app_assoc. rewrite endswith_app. apply removelast_last. }
  rewrite endswith_app. rewrite length_app. simpl length.
  replace (length t + 3 - 3)%nat with (length t) by lia.
  by rewrite take_app_length, Ht.
Qed.

(** Every name of the shape the pattern describes matches, and group 1 is
    its run of ID digits. *)
Lemma match_valid_intro (y m d g t e : str) :
  length y = 4%nat → forallb Re.is_digit y = true →
  length m = 2%nat → forallb Re.is_digit m = true →
  length d = 2%nat → forallb Re.is_digit d = true →
  g ≠ [] → forallb Re.is_digit g = true →
  forallb Re.is_dot t = true → e = [] ∨ e = [Str.LF] →
  Re.match_valid (y ++ py "-" ++ m ++ py "-" ++ d ++ py "-" ++ g ++ py "-"
                  ++ t ++ py ".md" ++ e) = Some g.
Proof.
  intros Hy1 Hy2 Hm1 Hm2 Hd1 Hd2 Hg1 Hg2 Ht He. unfold Re.match_valid.
  rewrite (digits_n_app 4 y) by done. cbn [mbind option_bind py list_ascii_of_string app].
  rewrite lit_cons. cbn [mbind option_bind].
  rewrite (digits_n_app 2 m) by done. cbn [mbind option_bind app].
  rewrite lit_cons. cbn [mbind option_bind].
  rewrite (digits_n_app 2 d) by done. cbn [mbind option_bind app].
  rewrite lit_cons. cbn [mbind option_bind].
  rewrite (digits_run_app g) by done. 
  rewrite bool_decide_eq_false_2 by done.
  rewrite lit_cons. cbn [mbind option_bind].
  change ("."%char :: "m"%char :: "d"%char :: e) with (py ".md" ++ e).
  by rewrite title_md_end_intro.
Qed.

End Regex.

Section RegexShape.

Lemma digits_n_elim (n : nat) (s r : str) :
  Re.digits_n n s = Some r →
  ∃ p, s = p ++ r ∧ length p = n ∧ forallb Re.is_digit p = true.
Proof.
  unfold Re.digits_n. destruct (n <=? length s)%nat eqn:Hn; [|done].
  destruct (forallb Re.is_digit (take n s)) eqn:Hp; [|done].
  intros [= <-]. exists (take n s). split; [by rewrite take_drop|].
  split; [|done]. apply Nat.leb_le in Hn. rewrite length_take. lia.
Qed.

Lemma lit_elim (c : ascii) (s r : str) : Re.lit c s = Some r → s = c :: r.
Proof.
  destruct s as [|c' s]; [done|]. cbn [Re.lit].
  destruct (Ascii.eqb c c') eqn:Hc; [|done].
  apply Ascii.eqb_eq in Hc as ->. by intros [= ->].
Qed.

Lemma digits_run_elim (s g r : str) :
  Re.digits_run s = (g, r) → s = g ++ r ∧ forallb Re.is_digit g = true.
Proof.
  revert g r. induction s as [|c s IH]; intros g r; cbn [Re.digits_run].
  - by intros [= <- <-].
  - destruct (Re.is_digit c) eqn:Hc; [|by intros [= <- <-]].
    destruct (Re.digits_run s) as [run tl]. intros [= <- <-].
    destruct (IH run tl eq_refl) as [-> Hrun]. cbn [forallb]. by rewrite Hc.
Qed.

Lemma title_md_end_elim (s : str) :
  Re.title_md_end s = true →
  ∃ t e, s = t ++ py ".md" ++ e ∧ forallb Re.is_dot t = true
         ∧ (e = [] ∨ e = [Str.LF]).
Proof.
  unfold Re.title_md_end.
  destruct (Str.endswith s [Str.LF]) eqn:Hlf.
  - apply endswith_true in Hlf as [k ->]. rewrite removelast_last.
    intros [[t ->]%endswith_true Ht]%andb_prop.
    exists t, [Str.LF]. split; [by rewrite <- app_assoc|]. split; [|by right].
    rewrite length_app in Ht. cbn [length py list_ascii_of_string] in Ht.
    replace (length t + 3 - 3)%nat with (length t) in Ht by lia.
    by rewrite take_app_length in Ht.
  - intros [[t ->]%endswith_true Ht]%andb_prop.
    exists t, []. split; [done|]. split; [|by left].
    rewrite length_app in Ht. cbn [length py list_ascii_of_string] in Ht.
    replace (length t + 3 - 3)%nat with (length t) in Ht by lia.
    by rewrite take_app_length in Ht.
Qed.

(** The matcher accepts exactly the names the regular expression
    describes: four digits, two digits, two digits, a non-empty run of
    digits (group 1), each followed by a hyphen, then any characters but a
    line feed, then [.md], at the end of the name or before a final line
    feed. *)
Lemma match_valid_shape (filename g : str) :
  Re.match_valid filename = Some g ↔
  ∃ y m d t e,
    filename = y ++ py "-" ++ m ++ py "-" ++ d ++ py "-" ++ g ++ py "-"
               ++ t ++ py ".md" ++ e
    ∧ length y = 4%nat ∧ forallb Re.is_digit y = true
    ∧ length m = 2%nat ∧ forallb Re.is_digit m = true
    ∧ length d = 2%nat ∧ forallb Re.is_digit d = true
    ∧ g ≠ [] ∧ forallb Re.is_digit g = true
    ∧ forallb Re.is_dot t = true ∧ (e = [] ∨ e = [Str.LF]).
Proof.
  split.
  - unfold Re.match_valid. intros H.
    destruct (Re.digits_n 4 filename) as [s1|] eqn:E1; [|done].
    apply digits_n_elim in E1 as (y & -> & Hy1 & Hy2). cbn [mbind option_bind] in H.
    destruct (Re.lit "-" s1) as [s2|] eqn:E2; [|done].
    apply lit_elim in E2 as ->. cbn [mbind option_bind] in H.
    destruct (Re.digits_n 2 s2) as [s3|] eqn:E3; [|done].
    apply digits_n_elim in E3 as (m & -> & Hm1 & Hm2). cbn [mbind option_bind] in H.
    destruct (Re.lit "-" s3) as [s4|] eqn:E4; [|done].
    apply lit_elim in E4 as ->. cbn [mbind option_bind] in H.
    destruct (Re.digits_n 2 s4) as [s5|] eqn:E5; [|done].
    apply digits_n_elim in E5 as (d & -> & Hd1 & Hd2). cbn [mbind option_bind] in H.
    destruct (Re.lit "-" s5) as [s6|] eqn:E6; [|done].
    apply lit_elim in E6 as ->. cbn [mbind option_bind] in H.
    destruct (Re.digits_run s6) as [g' s7] eqn:E7.
    apply digits_run_elim in E7 as [-> Hg].
    case_bool_decide as Hne; [done|].
    destruct (Re.lit "-" s7) as [s8|] eqn:E8; [|done].
    apply lit_elim in E8 as ->. cbn [mbind option_bind] in H.
    destruct (Re.title_md_end s8) eqn:E9; [|done].
    apply title_md_end_elim in E9 as (t & e & -> & Ht & He).
    injection H as <-. exists y, m, d, t, e. done.
  - intros (y & m & d & t & e & -> & ? & ? & ? & ? & ? & ? & ? & ? & ? & ?).
    by apply match_valid_intro.
Qed.

Lemma match_valid_group (filename g : str) :
  Re.match_valid filename = Some g → g ≠ [] ∧ forallb Re.is_digit g = true.
Proof. intros (y & m & d & t & e & _ & _ & _ & _ & _ & _ & _ & ? & ? & _)%match_valid_shape. done. Qed.

End RegexShape.

Section Slug.

Lemma slug_char_fixed (c : ascii) :
  Re.is_slug_char c = true →
  Str.lower_char c = c ∧ c ≠ " "%char ∧ Re.is_dot c = true.
Proof. ascii_cases c; vm_compute; intros H; try discriminate H; done. Qed.

Lemma digit_slug_char (c : ascii) : Re.is_digit c = true → Re.is_slug_char c = true.
Proof. unfold Re.is_slug_char. intros ->. by rewrite orb_true_r. Qed.

Lemma slug_eq (s : str) :
  slug s = List.filter Re.is_slug_char
             (map (fun c => if decide (c = " "%char) then "-"%char else c)
                  (map Str.lower_char s)).
Proof.
  unfold slug, Re.sub_non_slug, Str.lower.
  change (py " ") with [" "%char]. change (py "-") with ["-"%char].
  by rewrite replace_char.
Qed.

Lemma slug_chars (s : str) : forallb Re.is_slug_char (slug s) = true.
Proof.
  unfold slug, Re.sub_non_slug. apply forallb_forall.
  intros c Hc. by apply filter_In in Hc as [_ Hc].
Qed.

Lemma slug_fixed (s : str) : forallb Re.is_slug_char s = true → slug s = s.
Proof.
  intros Hs. rewrite slug_eq. induction s as [|c s IH]; [done|].
  cbn [forallb] in Hs. apply andb_prop in Hs as [Hc Hs].
  destruct (slug_char_fixed c Hc) as (Hl & Hsp & _).
  cbn [map]. rewrite Hl. rewrite decide_False by done.
  cbn [List.filter]. by rewrite Hc, (IH Hs).
Qed.

Lemma slug_dots (s : str) : forallb Re.is_dot (slug s) = true.
Proof.
  pose proof (slug_chars s) as H. rewrite forallb_forall in *.
  intros c Hc. by apply slug_char_fixed, H.
Qed.

Lemma replace_absent (s old new : str) (c : ascii) (old' : str) :
  old = c :: old' → (∀ a, a ∈ s → a ≠ c) → Str.replace s old new = s.
Proof.
  intros -> Hs. unfold Str.replace. induction s as [|a s IH]; [done|].
  cbn [Str.replace_from].
  assert (Str.startswith (a :: s) (c :: old') = false) as ->.
  { apply not_true_is_false. unfold Str.startswith. rewrite bool_decide_eq_true.
    intros [k Hk]. cbn in Hk. injection Hk as -> _.
    by eapply Hs; [apply list_elem_of_here|]. }
  f_equal. apply IH. intros b Hb. by apply Hs, list_elem_of_further.
Qed.

Lemma clean_title_fixed (s : str) : clean_title (slug s) = slug s.
Proof.
  unfold clean_title. rewrite (replace_absent _ _ _ "."%char (py "md")); [|done|].
  - apply slug_fixed, slug_chars.
  - intros a Ha ->. pose proof (slug_chars s) as H. rewrite forallb_forall in H.
    apply list_elem_of_In in Ha. by specialize (H _ Ha).
Qed.

End Slug.

Section NewName.

Lemma strftime_shape (today : date) :
  valid_date today →
  ∃ y m d, strftime_Ymd today = y ++ py "-" ++ m ++ py "-" ++ d
    ∧ length y = 4%nat ∧ forallb Re.is_digit y = true
    ∧ length m = 2%nat ∧ forallb Re.is_digit m = true
    ∧ length d = 2%nat ∧ forallb Re.is_digit d = true.
Proof.
  intros (Hy & Hm & Hd).
  exists (Dec.format_d 4 (year today)), (Dec.format_d 2 (month today)),
         (Dec.format_d 2 (day today)).
  split; [reflexivity|].
  rewrite !format_d_digits.
  rewrite !format_d_length; first done; first [ by auto | simpl; lia ].
Qed.

Lemma new_filename_match (today : date) (next_id : N) (filename : str) :
  valid_date today →
  Re.match_valid (new_filename (strftime_Ymd today) next_id filename)
  = Some (Dec.format_d 3 next_id).
Proof.
  intros (y & m & d & -> & ? & ? & ? & ? & ? & ?)%strftime_shape.
  unfold new_filename. rewrite <- !app_assoc.
  rewrite <- (app_nil_r (py ".md")).
  apply match_valid_intro; auto using format_d_nonempty, format_d_digits.
  apply slug_dots.
Qed.

Lemma new_filename_id (today : date) (next_id : N) (filename : str) :
  valid_date today →
  embedded_id (new_filename (strftime_Ymd today) next_id filename) = Some next_id.
Proof.
  intros H. unfold embedded_id. rewrite new_filename_match by done.
  apply int_of_format_d.
Qed.

Lemma conforming_true (filename : str) :
  conforming filename = true ↔ is_Some (Re.match_valid filename).
Proof. unfold conforming. by rewrite bool_decide_eq_true. Qed.

Lemma conforming_embedded (filename : str) :
  conforming filename = true ↔ is_Some (embedded_id filename).
Proof.
  rewrite conforming_true. unfold embedded_id. split.
  - intros [g Hg]. rewrite Hg. cbn [mbind option_bind].
    apply match_valid_group in Hg as [? ?]. by apply int_of_digits_digits.
  - intros [k Hk]. destruct (Re.match_valid filename); [eauto|done].
Qed.

Lemma new_filename_skipped (today : date) (next_id : N) (filename : str) :
  valid_date today →
  needs_rename (new_filename (strftime_Ymd today) next_id filename) = false.
Proof.
  intros H. unfold needs_rename.
  rewrite (proj2 (conforming_true _)); [by rewrite andb_false_r|].
  rewrite new_filename_match by done. eauto.
Qed.

End NewName.

(** * Running the program *)

Section Monad.

Lemma run_bind {A B} (m : M A) (f : A → M B) (w : world) :
  (m ≫= f) w = match m w with (Ok a, w') => f a w' | (Raise e, w') => (Raise e, w') end.
Proof. reflexivity. Qed.

Lemma run_bind_ok {A B} (m : M A) (f : A → M B) (w w' : world) (a : A) :
  m w = (Ok a, w') → (m ≫= f) w = f a w'.
Proof. intros H. by rewrite run_bind, H. Qed.

Lemma run_bind_raise {A B} (m : M A) (f : A → M B) (w w' : world) (e : exn) :
  m w = (Raise e, w') → (m ≫= f) w = (Raise e, w').
Proof. intros H. by rewrite run_bind, H. Qed.

End Monad.

Section Scanner.

Lemma max_embedded_bound (names : list str) (name : str) (k : N) :
  name ∈ names → embedded_id name = Some k →
  k <= foldr N.max 0 (omap embedded_id names).
Proof.
  induction names as [|f rest IH]; [by intros ?%elem_of_nil|].
  intros [->|Hin]%elem_of_cons Hk; cbn [omap list_omap].
  - rewrite Hk. cbn [foldr]. lia.
  - specialize (IH Hin Hk). destruct (embedded_id f); cbn [foldr]; lia.
Qed.

Lemma max_embedded_attained (names : list str) :
  foldr N.max 0 (omap embedded_id names) = 0
  ∨ ∃ name, name ∈ names
      ∧ embedded_id name = Some (foldr N.max 0 (omap embedded_id names)).
Proof.
  induction names as [|f rest IH]; [by left|].
  cbn [omap list_omap]. destruct (embedded_id f) as [k|] eqn:Hk.
  - cbn [foldr]. right.
    destruct (N.max_spec k (foldr N.max 0 (omap embedded_id rest))) as [[Hlt ->]|[Hle ->]].
    + destruct IH as [H0|(name & Hin & Hname)]; [lia|].
      exists name. split; [by apply list_elem_of_further|done].
    + exists f. split; [by apply list_elem_of_here|done].
  - destruct IH as [H0|(name & Hin & Hname)]; [by left|right].
    exists name. split; [by apply list_elem_of_further|done].
Qed.

Lemma next_free_above (names : list str) (name : str) (k : N) :
  name ∈ names → embedded_id name = Some k → k < next_free names.
Proof.
  intros Hin Hk. pose proof (max_embedded_bound names name k Hin Hk).
  unfold next_free. lia.
Qed.

Lemma next_free_least (names : list str) (n : N) :
  1 <= n →
  (∀ name k, name ∈ names → embedded_id name = Some k → k < n) →
  next_free names <= n.
Proof.
  intros Hn Hall. unfold next_free.
  destruct (max_embedded_attained names) as [->|(name & Hin & Hname)]; [lia|].
  specialize (Hall _ _ Hin Hname). lia.
Qed.

Lemma scan_ids_run (names : list str) (max_id : N) (w : world) :
  scan_ids names max_id w
  = (Ok (N.max max_id (foldr N.max 0 (omap embedded_id names))), w).
Proof.
  revert max_id. induction names as [|f rest IH]; intros max_id.
  - cbn [scan_ids omap list_omap foldr]. by rewrite N.max_0_r.
  - cbn [scan_ids omap list_omap].
    destruct (Re.match_valid f) as [g|] eqn:Hg.
    + assert (is_Some (embedded_id f)) as [k Hk].
      { apply conforming_embedded, conforming_true. eauto. }
      rewrite Hk. unfold embedded_id in Hk. rewrite Hg in Hk.
      cbn [mbind option_bind] in Hk.
      rewrite Hk, IH. cbn [foldr]. do 2 f_equal.
      destruct (N.ltb_spec max_id k); lia.
    + assert (embedded_id f = None) as -> by (unfold embedded_id; by rewrite Hg).
      apply IH.
Qed.

Lemma get_next_id_missing (path : str) (w : world) :
  w_fs w !! path = None → get_next_id path w = (Ok 1, w).
Proof.
  intros H. unfold get_next_id. rewrite run_bind. unfold os.path_exists.
  rewrite H. rewrite bool_decide_eq_false_2 by (by intros [? ?]). reflexivity.
Qed.

Lemma get_next_id_dir (path : str) (w : world) (es : entries) :
  w_fs w !! path = Some (Dir es) →
  get_next_id path w = (Ok (next_free (Entries.names es)), w).
Proof.
  intros H. unfold get_next_id. rewrite run_bind. unfold os.path_exists.
  rewrite H. rewrite bool_decide_eq_true_2 by eauto. cbn [negb].
  rewrite run_bind. unfold os.listdir. rewrite H.
  rewrite run_bind, scan_ids_run. by rewrite N.max_0_l.
Qed.

Lemma get_next_id_file (path : str) (w : world) (data : str) :
  w_fs w !! path = Some (File data) →
  get_next_id path w = (Raise NotADirectoryError, w).
Proof.
  intros H. unfold get_next_id. rewrite run_bind. unfold os.path_exists.
  rewrite H. rewrite bool_decide_eq_true_2 by eauto. cbn [negb].
  rewrite run_bind. unfold os.listdir. by rewrite H.
Qed.

End Scanner.

Section EntriesFacts.

Lemma lookup_notin (name : str) (es : entries) :
  name ∉ Entries.names es → Entries.lookup name es = None.
Proof.
  induction es as [|[n x] rest IH]; [done|]. unfold Entries.names.
  cbn [fmap list_fmap Entries.lookup fst]. intros Hn%not_elem_of_cons.
  destruct Hn as [Hne Hrest]. rewrite decide_False by done. by apply IH.
Qed.

Lemma lookup_app_head (name : str) (x : node) (pre rest : entries) :
  name ∉ Entries.names pre →
  Entries.lookup name (pre ++ (name, x) :: rest) = Some x.
Proof.
  induction pre as [|[n y] pre IH]; unfold Entries.names;
    cbn [fmap list_fmap Entries.lookup fst app].
  - intros _. by rewrite decide_True.
  - intros [Hne Hrest]%not_elem_of_cons. rewrite decide_False by done. by apply IH.
Qed.

Lemma rename_app_head (old new : str) (x : node) (pre rest : entries) :
  old ∉ Entries.names pre →
  Entries.rename old new (pre ++ (old, x) :: rest) = pre ++ (new, x) :: rest.
Proof.
  induction pre as [|[n y] pre IH]; unfold Entries.names;
    cbn [fmap list_fmap Entries.rename fst app].
  - intros _. by rewrite decide_True.
  - intros [Hne Hrest]%not_elem_of_cons. rewrite decide_False by done.
    f_equal. by apply IH.
Qed.

(** A move to a name absent from the folder renames the entry in place. *)
Lemma move_entries_fresh (old new : str) (x : node) (pre rest : entries) :
  old ∉ Entries.names pre →
  new ∉ Entries.names (pre ++ (old, x) :: rest) →
  shutil.move_entries old new (pre ++ (old, x) :: rest)
  = Ok (pre ++ (new, x) :: rest).
Proof.
  intros Hold Hnew. unfold shutil.move_entries.
  rewrite (lookup_notin new) by done. rewrite lookup_app_head by done.
  by rewrite rename_app_head.
Qed.

End EntriesFacts.

Section Loop.

Lemma names_app (a b : entries) :
  Entries.names (a ++ b) = Entries.names a ++ Entries.names b.
Proof. unfold Entries.names. apply fmap_app. Qed.

(** One turn of the loop, with the name it computes written as
    [new_filename]. *)
Lemma rename_loop_cons (folder filename : str) (rest : list str) (n : N) :
  rename_loop folder (filename :: rest) n =
    if negb (Str.endswith filename (py ".md")) then rename_loop folder rest n
    else if conforming filename then rename_loop folder rest n
    else
      today ← date_today;
      _ ← print (renaming_line filename (new_filename (strftime_Ymd today) n filename));
      _ ← shutil.move folder filename (new_filename (strftime_Ymd today) n filename);
      rename_loop folder rest (n + 1).
Proof. reflexivity. Qed.

Lemma rename_loop_skip_one (folder filename : str) (rest : list str) (n : N) :
  needs_rename filename = false →
  rename_loop folder (filename :: rest) n = rename_loop folder rest n.
Proof.
  intros Hneed. rewrite rename_loop_cons. unfold needs_rename in Hneed.
  destruct (Str.endswith filename (py ".md")); [|done].
  destruct (conforming filename); [done|discriminate Hneed].
Qed.

Lemma rename_loop_skip (folder : str) (names : list str) (n : N) (w : world) :
  (∀ name, name ∈ names → needs_rename name = false) →
  rename_loop folder names n w = (Ok n, w).
Proof.
  induction names as [|f rest IH]; intros Hall; [done|].
  rewrite rename_loop_skip_one by apply Hall, list_elem_of_here.
  apply IH. intros name Hin. by apply Hall, list_elem_of_further.
Qed.

(** The loop on the entries [suf] of a folder whose earlier entries [pre]
    need no rename, with every ID in the folder below the counter: it
    carries out the planned renames until the file system refuses one. *)
Lemma rename_loop_run (folder : str) (suf : entries) :
  ∀ (pre : entries) (n : N) (w : world),
  (∀ t, valid_date (w_dates w t)) →
  w_fs w !! folder = Some (Dir (pre ++ suf)) →
  (∀ name, name ∈ Entries.names pre → needs_rename name = false) →
  (∀ name k, name ∈ Entries.names (pre ++ suf) → embedded_id name = Some k → k < n) →
  rename_loop folder (Entries.names suf) n w =
    let refuses := w_refuses w folder in
    let plan := planned (w_dates w) (w_tick w) (Entries.names suf) n in
    (if loop_ok refuses plan then Ok (n + N.of_nat (length plan)) else Raise OSError,
     World (<[folder := Dir (pre ++ relabel refuses (w_dates w) (w_tick w) suf n)]> (w_fs w))
           (w_dates w) (w_tick w + loop_ticks refuses plan) (w_refuses w)
           (w_trace w ++ loop_trace folder refuses plan)).
Proof.
  induction suf as [|[name x] rest IH];
    intros pre n [fs dates tick refuses trace] Hdates Hfs Hpre Hids;
    cbn [w_fs w_dates w_tick w_trace w_refuses] in *.
  - cbn. rewrite app_nil_r in Hfs. rewrite !app_nil_r, insert_id by done.
    rewrite N.add_0_r, Nat.add_0_r. reflexivity.
  - assert (∀ e : str * node, (pre ++ [e]) ++ rest = pre ++ e :: rest) as Hassoc
        by (intros; by rewrite <- app_assoc).
    unfold Entries.names. cbn [fmap list_fmap fst]. fold (Entries.names rest).
    cbn [planned relabel].
    destruct (needs_rename name) eqn:Hneed.
    + (* the name passes both guards *)
      rewrite rename_loop_cons.
      pose proof Hneed as Hneed'.
      unfold needs_rename in Hneed. apply andb_prop in Hneed as [Hmd Hconf].
      apply negb_true_iff in Hconf. rewrite Hmd, Hconf. cbn [negb].
      set (new := new_filename (strftime_Ymd (dates tick)) n name).
      rewrite run_bind. cbn [date_today w_fs w_dates w_tick w_trace w_refuses].
      rewrite run_bind. cbn [print emit w_fs w_dates w_tick w_trace w_refuses].
      rewrite run_bind. unfold shutil.move.
      cbn [emit w_fs w_dates w_tick w_trace w_refuses].
      rewrite Hfs. fold new.
      cbn [loop_ok forallb loop_ticks loop_trace fst snd].
      destruct (refuses folder name new) eqn:Href; cbn [negb andb].
      * (* the file system refuses the move *)
        rewrite insert_id by done. by rewrite Nat.add_1_r.
      * assert (embedded_id new = Some n) as Hnew_id by (by apply new_filename_id).
        assert (needs_rename new = false) as Hnew_skip by (by apply new_filename_skipped).
        assert (name ∉ Entries.names pre) as Hold.
        { intros Hin%Hpre. congruence. }
        assert (new ∉ Entries.names (pre ++ (name, x) :: rest)) as Hfresh.
        { intros Hin. specialize (Hids _ _ Hin Hnew_id). lia. }
        rewrite move_entries_fresh by done.
        cbn [emit set_fs w_fs w_dates w_tick w_trace w_refuses].
        rewrite (IH (pre ++ [(new, x)]));
          cbn [emit set_fs w_fs w_dates w_tick w_trace w_refuses].
        -- cbn zeta. rewrite insert_insert_eq, <- (app_assoc pre). cbn [app length].
           fold (loop_ok (refuses folder)).
           replace (n + 1 + N.of_nat (length (planned dates (S tick) (Entries.names rest) (n + 1))))
             with (n + N.of_nat (S (length (planned dates (S tick) (Entries.names rest) (n + 1)))))
             by lia.
           rewrite Nat.add_succ_comm, <- !app_assoc. reflexivity.
        -- done.
        -- rewrite lookup_insert_eq. by rewrite Hassoc.
        -- intros nm. rewrite names_app.
           intros [Hin| ->%list_elem_of_singleton]%elem_of_app; auto.
        -- intros nm k. rewrite Hassoc, names_app.
           intros [Hin|[->|Hin]%elem_of_cons]%elem_of_app Hk.
           ++ assert (k < n); [|lia]. eapply Hids; [|done]. rewrite names_app.
              apply elem_of_app. by left.
           ++ cbn [fst] in Hk. rewrite Hnew_id in Hk. injection Hk as <-. lia.
           ++ assert (k < n); [|lia]. eapply Hids; [|done]. rewrite names_app.
              apply elem_of_app. right. by apply list_elem_of_further.
    + (* the name is skipped by one of the two guards *)
      rewrite rename_loop_skip_one by done.
      rewrite (IH (pre ++ [(name, x)])); cbn [w_fs w_dates w_tick w_trace w_refuses].
      * cbn zeta. by rewrite <- (app_assoc pre).
      * done.
      * by rewrite Hassoc.
      * intros nm. rewrite names_app.
        intros [Hin| ->%list_elem_of_singleton]%elem_of_app; auto.
      * intros nm k. rewrite Hassoc. apply Hids.
Qed.

End Loop.

Section Folder.

Lemma process_folder_dir (folder : str) (w : world) (es : entries) :
  (∀ t, valid_date (w_dates w t)) →
  w_fs w !! folder = Some (Dir es) →
  process_folder folder w =
    let refuses := w_refuses w folder in
    let first := next_free (Entries.names es) in
    let plan := planned (w_dates w) (w_tick w) (Entries.names es) first in
    (if loop_ok refuses plan then Ok tt else Raise OSError,
     World (<[folder := Dir (relabel refuses (w_dates w) (w_tick w) es first)]> (w_fs w))
           (w_dates w) (w_tick w + loop_ticks refuses plan) (w_refuses w)
           (w_trace w ++ Stdout (scanning_line folder) :: loop_trace folder refuses plan)).
Proof.
  intros Hdates Hfs. unfold process_folder.
  rewrite run_bind. cbn [print]. rewrite run_bind. unfold os.path_exists.
  cbn [emit w_fs]. rewrite Hfs, bool_decide_eq_true_2 by eauto. cbn [negb].
  rewrite run_bind, (get_next_id_dir folder _ es) by done.
  rewrite run_bind. unfold os.listdir. cbn [emit w_fs]. rewrite Hfs.
  rewrite run_bind.
  rewrite (rename_loop_run folder es [] (next_free (Entries.names es)));
    cbn [emit w_fs w_dates w_tick w_trace w_refuses app].
  - cbn zeta. rewrite <- app_assoc. cbn [app]. by destruct (loop_ok _ _).
  - done.
  - done.
  - by intros name ?%elem_of_nil.
  - apply next_free_above.
Qed.

Lemma process_folder_missing (folder : str) (w : world) :
  w_fs w !! folder = None →
  process_folder folder w = (Ok tt, emit (Stdout (scanning_line folder)) w).
Proof.
  intros Hfs. unfold process_folder.
  rewrite run_bind. cbn [print]. rewrite run_bind. unfold os.path_exists.
  cbn [emit w_fs]. rewrite Hfs, bool_decide_eq_false_2 by (by intros [? ?]).
  reflexivity.
Qed.

Lemma process_folder_file (folder : str) (w : world) (data : str) :
  w_fs w !! folder = Some (File data) →
  process_folder folder w
  = (Raise NotADirectoryError, emit (Stdout (scanning_line folder)) w).
Proof.
  intros Hfs. unfold process_folder.
  rewrite run_bind. cbn [print]. rewrite run_bind. unfold os.path_exists.
  cbn [emit w_fs]. rewrite Hfs, bool_decide_eq_true_2 by eauto. cbn [negb].
  by rewrite run_bind, (get_next_id_file folder _ data).
Qed.

End Folder.

Section Plan.

Context (dates : nat → date) (Hdates : ∀ t, valid_date (dates t)).

Lemma planned_olds (names : list str) : ∀ tick n,
  (planned dates tick names n).*1.*1 = List.filter needs_rename names.
Proof using Type.
  induction names as [|f rest IH]; intros tick n; [done|].
  cbn [planned List.filter]. destruct (needs_rename f); [|apply IH].
  cbn [fmap list_fmap fst]. f_equal. apply IH.
Qed.

Lemma planned_ids (names : list str) : ∀ tick n,
  (planned dates tick names n).*1.*2
  = (fun i => n + N.of_nat i) <$> seq 0 (length (planned dates tick names n)).
Proof using Type.
  induction names as [|f rest IH]; intros tick n; [done|].
  cbn [planned]. destruct (needs_rename f); [|apply IH].
  cbn [fmap list_fmap fst snd length seq]. f_equal; [lia|].
  rewrite IH, <- fmap_S_seq, <- list_fmap_compose. apply list_fmap_ext.
  intros _ i _. cbn. lia.
Qed.

Lemma planned_news_ids (names : list str) : ∀ tick n,
  embedded_id <$> (planned dates tick names n).*2
  = Some <$> (planned dates tick names n).*1.*2.
Proof using Hdates.
  induction names as [|f rest IH]; intros tick n; [done|].
  cbn [planned]. destruct (needs_rename f); [|apply IH].
  cbn [fmap list_fmap fst snd]. rewrite new_filename_id by done. f_equal. apply IH.
Qed.

Lemma planned_elem (names : list str) : ∀ tick n old id new,
  (old, id, new) ∈ planned dates tick names n →
  old ∈ names ∧ needs_rename old = true ∧ n <= id
  ∧ ∃ t, new = new_filename (strftime_Ymd (dates t)) id old.
Proof using Type.
  induction names as [|f rest IH]; intros tick n old id new; [by intros ?%elem_of_nil|].
  cbn [planned]. destruct (needs_rename f) eqn:Hf.
  - intros [Heq|Hin]%elem_of_cons.
    + injection Heq as -> -> ->. split; [apply list_elem_of_here|].
      split; [done|]. split; [lia|]. eauto.
    + destruct (IH _ _ _ _ _ Hin) as (? & ? & ? & ?).
      split; [by apply list_elem_of_further|]. split; [done|]. split; [lia|done].
  - intros Hin. destruct (IH _ _ _ _ _ Hin) as (? & ? & ? & ?).
    split; [by apply list_elem_of_further|]. done.
Qed.

End Plan.

Section PlanMore.


Lemma planned_lookup (dates : nat → date) (names : list str) :
  ∀ tick n i old id new,
  planned dates tick names n !! i = Some (old, id, new) →
  id = n + N.of_nat i
  ∧ new = new_filename (strftime_Ymd (dates (tick + i)%nat)) id old
  ∧ List.filter needs_rename names !! i = Some old.
Proof.
  induction names as [|f rest IH]; intros tick n i old id new; [done|].
  cbn [planned List.filter]. destruct (needs_rename f); [|apply IH].
  destruct i as [|i]; cbn [lookup list_lookup].
  - intros [= <- <- <-]. rewrite Nat.add_0_r. split; [lia|done].
  - intros (-> & -> & ?)%IH. replace (S tick + i)%nat with (tick + S i)%nat by lia.
    split; [lia|]. split; [|done]. repeat f_equal; lia.
Qed.

Lemma planned_complete (dates : nat → date) (names : list str) (name : str) :
  ∀ tick n, name ∈ names → needs_rename name = true →
  ∃ t id, (name, id, new_filename (strftime_Ymd (dates t)) id name)
            ∈ planned dates tick names n.
Proof.
  induction names as [|f rest IH]; intros tick n; [by intros ?%elem_of_nil|].
  intros [->|Hin]%elem_of_cons Hname; cbn [planned].
  - rewrite Hname. eexists _, _. apply list_elem_of_here.
  - destruct (needs_rename f).
    + destruct (IH (S tick) (n + 1) Hin Hname) as (t & id & H).
      exists t, id. by apply list_elem_of_further.
    + by apply IH.
Qed.

Lemma planned_nil (dates : nat → date) (names : list str) :
  ∀ tick n, (∀ name, name ∈ names → needs_rename name = false) →
  planned dates tick names n = [].
Proof.
  induction names as [|f rest IH]; intros tick n Hall; [done|].
  cbn [planned]. rewrite (Hall f) by apply list_elem_of_here.
  apply IH. intros name Hin. by apply Hall, list_elem_of_further.
Qed.

Lemma omap_fmap_Some {A B} (f : A → option B) (l : list A) (l' : list B) :
  f <$> l = Some <$> l' → omap f l = l'.
Proof.
  revert l'. induction l as [|a l IH]; intros [|b l'] H; try done.
  cbn [fmap list_fmap] in H. injection H as Ha Hl.
  cbn [omap list_omap]. rewrite Ha. f_equal. by apply IH.
Qed.

Lemma arith_lookup (n : N) (len i : nat) (a : N) :
  arith n len !! i = Some a → a = n + N.of_nat i ∧ (i < len)%nat.
Proof.
  unfold arith. rewrite list_lookup_fmap. intros H.
  destruct (seq 0 len !! i) as [j|] eqn:Hj; [|done].
  apply lookup_seq in Hj as [-> ?]. cbn in H. injection H as <-. done.
Qed.

Lemma arith_length (n : N) (len : nat) : length (arith n len) = len.
Proof. unfold arith. by rewrite length_fmap, length_seq. Qed.

Lemma arith_NoDup (n : N) (len : nat) : NoDup (arith n len).
Proof.
  unfold arith. apply NoDup_fmap_2; [|apply NoDup_seq].
  intros i j. lia.
Qed.

Lemma arith_elem (n : N) (len : nat) (a : N) : a ∈ arith n len → n <= a.
Proof.
  intros (i & Hi)%list_elem_of_lookup_1. apply arith_lookup in Hi. lia.
Qed.

(** A planned destination is a new conforming name: none of the names
    listed, as long as the IDs of those lie below the counter. *)
Lemma planned_fresh (dates : nat → date) (tick : nat) (names all : list str)
    (n : N) (old new : str) (id : N) :
  (∀ t, valid_date (dates t)) →
  (∀ name k, name ∈ all → embedded_id name = Some k → k < n) →
  (old, id, new) ∈ planned dates tick names n →
  embedded_id new = Some id ∧ conforming new = true ∧ n <= id ∧ (new ∉ all)
  ∧ needs_rename old = true ∧ old ∈ names.
Proof.
  intros Hdates Hall (Hold & Hneed & Hle & t & ->)%planned_elem.
  assert (embedded_id (new_filename (strftime_Ymd (dates t)) id old) = Some id) as Hid
    by (by apply new_filename_id).
  split; [done|]. split; [apply conforming_embedded; eauto|]. split; [done|].
  split; [|done]. intros Hin. specialize (Hall _ _ Hin Hid). lia.
Qed.

Lemma moves_of_plan (plan : list (str * N * str)) (old new : str) :
  (old, new) ∈ (fun p : str * N * str => (p.1.1, p.2)) <$> plan →
  ∃ id, (old, id, new) ∈ plan.
Proof.
  intros ([[o id] nw] & [= -> ->] & Hin)%list_elem_of_fmap. eauto.
Qed.



End PlanMore.

Section Carried.

Context (refuses : str → str → bool).

Lemma carried_prefix (plan : list (str * N * str)) :
  carried refuses plan `prefix_of` plan.
Proof using Type.
  induction plan as [|p plan IH]; [done|]. cbn [carried].
  destruct (refuses p.1.1 p.2); [apply prefix_nil|by apply prefix_cons].
Qed.

Lemma carried_elem (plan : list (str * N * str)) (p : str * N * str) :
  p ∈ carried refuses plan → p ∈ plan.
Proof using Type.
  destruct (carried_prefix plan) as [k Hk]. rewrite Hk at 2.
  rewrite elem_of_app. by left.
Qed.

Lemma carried_lookup (plan : list (str * N * str)) (i : nat) (p : str * N * str) :
  carried refuses plan !! i = Some p → plan !! i = Some p.
Proof using Type. intros H. by apply (prefix_lookup_Some _ _ _ _ H), carried_prefix. Qed.

Lemma carried_ok (plan : list (str * N * str)) :
  loop_ok refuses plan = true → carried refuses plan = plan.
Proof using Type.
  induction plan as [|p plan IH]; [done|]. cbn [loop_ok forallb carried].
  fold (loop_ok refuses plan). intros [Hp Hrest]%andb_prop.
  apply negb_true_iff in Hp. rewrite Hp. f_equal. by apply IH.
Qed.

Lemma carried_not_ok (plan : list (str * N * str)) :
  loop_ok refuses plan = false →
  ∃ p, plan !! length (carried refuses plan) = Some p ∧ refuses p.1.1 p.2 = true.
Proof using Type.
  induction plan as [|p plan IH]; [done|]. cbn [loop_ok forallb carried].
  fold (loop_ok refuses plan). destruct (refuses p.1.1 p.2) eqn:Hp; cbn [negb andb].
  - intros _. exists p. done.
  - intros H. cbn [length]. by apply IH.
Qed.

Lemma loop_ok_all (plan : list (str * N * str)) :
  (∀ old new, refuses old new = false) → loop_ok refuses plan = true.
Proof using Type.
  intros Hall. unfold loop_ok. apply forallb_forall. intros p _. by rewrite Hall.
Qed.

Lemma loop_ticks_eq (plan : list (str * N * str)) :
  loop_ticks refuses plan
  = (length (carried refuses plan) + if loop_ok refuses plan then 0 else 1)%nat.
Proof using Type.
  induction plan as [|p plan IH]; [done|]. cbn [loop_ticks carried loop_ok forallb].
  fold (loop_ok refuses plan). destruct (refuses p.1.1 p.2); cbn [negb andb length]; [done|].
  rewrite IH. lia.
Qed.

Lemma moves_loop_trace (folder : str) (plan : list (str * N * str)) :
  moves (loop_trace folder refuses plan)
  = (fun p => (p.1.1, p.2)) <$> carried refuses plan.
Proof using Type.
  induction plan as [|p plan IH]; [done|]. unfold moves in *.
  cbn [loop_trace carried omap list_omap]. destruct (refuses p.1.1 p.2); [done|].
  cbn [omap list_omap fmap list_fmap]. by rewrite IH.
Qed.

Lemma stdout_loop_trace (folder : str) (plan : list (str * N * str)) :
  stdout (loop_trace folder refuses plan)
  = (fun p => renaming_line p.1.1 p.2) <$> take (loop_ticks refuses plan) plan.
Proof using Type.
  induction plan as [|p plan IH]; [done|]. unfold stdout in *.
  cbn [loop_trace loop_ticks omap list_omap take fmap list_fmap].
  destruct (refuses p.1.1 p.2); [by destruct plan|].
  cbn [omap list_omap]. by rewrite IH.
Qed.

(** The trace of the loop: the renames carried out, each with its line,
    then the line of the refused one, if any. *)
Lemma loop_trace_shape (folder : str) (plan : list (str * N * str)) :
  loop_trace folder refuses plan
  = (((fun p => (p.1.1, p.2)) <$> carried refuses plan) ≫= rename_events folder)
    ++ match plan !! length (carried refuses plan) with
       | Some p => [Stdout (renaming_line p.1.1 p.2)]
       | None => []
       end.
Proof using Type.
  induction plan as [|p plan IH]; [done|]. cbn [loop_trace carried].
  destruct (refuses p.1.1 p.2); [done|].
  cbn [fmap list_fmap mbind list_bind rename_events fst snd length lookup list_lookup app].
  by rewrite IH.
Qed.

End Carried.

Section Relabel.

Context (refuses : str → str → bool).
Context (dates : nat → date) (Hdates : ∀ t, valid_date (dates t)).


Lemma relabel_kept (es : entries) : ∀ tick n name x,
  (name, x) ∈ es → needs_rename name = false →
  (name, x) ∈ relabel refuses dates tick es n.
Proof using Type.
  induction es as [|[f y] rest IH]; intros tick n name x; [done|].
  cbn [relabel]. intros [Heq|Hin]%elem_of_cons Hn.
  - injection Heq as -> ->. rewrite Hn. apply list_elem_of_here.
  - destruct (needs_rename f); [destruct (refuses f _)|];
      apply list_elem_of_further; auto.
Qed.

Lemma relabel_id (es : entries) : ∀ tick n,
  (∀ name, name ∈ Entries.names es → needs_rename name = false) →
  relabel refuses dates tick es n = es.
Proof using Type.
  induction es as [|[f x] rest IH]; intros tick n Hall; [done|].
  cbn [relabel]. rewrite (Hall f) by apply list_elem_of_here.
  f_equal. apply IH. intros name Hin. by apply Hall, list_elem_of_further.
Qed.

(** A name of the folder after the loop was there before or is the
    destination of a rename carried out. *)
Lemma relabel_names (es : entries) : ∀ tick n name,
  name ∈ Entries.names (relabel refuses dates tick es n) →
  name ∈ Entries.names es
  ∨ ∃ old id, (old, id, name) ∈ carried refuses (planned dates tick (Entries.names es) n).
Proof using Type.
  induction es as [|[f x] rest IH]; intros tick n name; [by left|].
  unfold Entries.names in *. cbn [relabel planned fmap list_fmap fst].
  destruct (needs_rename f).
  - cbn [carried fst snd]. destruct (refuses f _); [by left|].
    cbn [fmap list_fmap fst]. intros [->|Hin]%elem_of_cons.
    + right. eexists _, _. apply list_elem_of_here.
    + destruct (IH _ _ _ Hin) as [?|(old & id & ?)].
      * left. by apply list_elem_of_further.
      * right. exists old, id. by apply list_elem_of_further.
  - cbn [fmap list_fmap fst]. intros [->|Hin]%elem_of_cons.
    + left. apply list_elem_of_here.
    + destruct (IH _ _ _ Hin) as [?|?]; [left|by right].
      by apply list_elem_of_further.
Qed.

Lemma relabel_new_in (es : entries) : ∀ tick n old id new,
  (old, id, new) ∈ carried refuses (planned dates tick (Entries.names es) n) →
  new ∈ Entries.names (relabel refuses dates tick es n).
Proof using Type.
  induction es as [|[f x] rest IH]; intros tick n old id new; [by intros ?%elem_of_nil|].
  unfold Entries.names in *. cbn [relabel planned fmap list_fmap fst].
  destruct (needs_rename f).
  - cbn [carried fst snd]. destruct (refuses f _); [by intros ?%elem_of_nil|].
    cbn [fmap list_fmap fst]. intros [[= -> -> ->]|Hin]%elem_of_cons.
    + apply list_elem_of_here.
    + apply list_elem_of_further. by eapply IH.
  - cbn [fmap list_fmap fst]. intros Hin. apply list_elem_of_further. by eapply IH.
Qed.

(** A rename carried out puts the content of the old name under the new
    name, and the old name is gone. *)
Lemma relabel_moved (es : entries) : ∀ tick n old id new x,
  NoDup (Entries.names es) →
  (old, id, new) ∈ carried refuses (planned dates tick (Entries.names es) n) →
  (old, x) ∈ es →
  (new, x) ∈ relabel refuses dates tick es n
  ∧ old ∉ Entries.names (relabel refuses dates tick es n).
Proof using Hdates.
  induction es as [|[f y] rest IH]; intros tick n old id new x; [by intros _ ?%elem_of_nil|].
  unfold Entries.names in *. cbn [relabel planned fmap list_fmap fst].
  intros [Hf Hnd]%NoDup_cons Hplan Hin.
  assert (∀ z, (f, z) ∈ rest → False) as Hfrest.
  { intros z Hz. apply Hf. apply list_elem_of_fmap. by exists (f, z). }
  assert (∀ tick' n', needs_rename old = true →
            old ∉ rest.*1 → old ∉ (relabel refuses dates tick' rest n').*1) as Hgone.
  { intros tick' n' Hold Hnot Hin'.
    apply (relabel_names rest) in Hin' as [?|(o & i & Hc)]; [done|].
    apply carried_elem, planned_elem in Hc as (_ & _ & _ & t & ->).
    by rewrite new_filename_skipped in Hold. }
  destruct (needs_rename f) eqn:Hneed.
  - cbn [carried fst snd] in Hplan. destruct (refuses f _); [by apply elem_of_nil in Hplan|].
    apply elem_of_cons in Hplan as [[= -> -> ->]|Hplan]; cbn [fmap list_fmap fst].
    + apply elem_of_cons in Hin as [[= ->]|Hin]; [|by destruct (Hfrest x)].
      split; [apply list_elem_of_here|].
      apply not_elem_of_cons. split; [|by apply Hgone].
      intros Heq. rewrite Heq, new_filename_skipped in Hneed by done. done.
    + pose proof Hplan as (Hold & Hnr & _ & _)%carried_elem%planned_elem.
      apply elem_of_cons in Hin as [[= -> ->]|Hin]; [done|].
      destruct (IH _ _ _ _ _ _ Hnd Hplan Hin) as [? ?].
      split; [by apply list_elem_of_further|].
      apply not_elem_of_cons. split; [|done].
      intros Heq. rewrite Heq, new_filename_skipped in Hnr by done. done.
  - pose proof Hplan as (Hold & Hnr & _ & _)%carried_elem%planned_elem.
    apply elem_of_cons in Hin as [[= -> ->]|Hin]; [congruence|].
    destruct (IH _ _ _ _ _ _ Hnd Hplan Hin) as [? ?]. cbn [fmap list_fmap fst].
    split; [by apply list_elem_of_further|].
    apply not_elem_of_cons. split; [congruence|done].
Qed.

(** When no rename is refused, no name is left that passes both guards. *)
Lemma relabel_skipped (es : entries) : ∀ tick n name,
  loop_ok refuses (planned dates tick (Entries.names es) n) = true →
  name ∈ Entries.names (relabel refuses dates tick es n) →
  needs_rename name = false.
Proof using Hdates.
  induction es as [|[f x] rest IH]; intros tick n name; [by intros _ ?%elem_of_nil|].
  unfold Entries.names in *. cbn [relabel planned fmap list_fmap fst].
  destruct (needs_rename f) eqn:Hf.
  - cbn [loop_ok forallb fst snd]. intros [Hp Hrest]%andb_prop.
    apply negb_true_iff in Hp. rewrite Hp. cbn [fmap list_fmap fst].
    intros [->|Hin]%elem_of_cons; [by apply new_filename_skipped|by eapply IH].
  - cbn [fmap list_fmap fst]. intros Hok [->|Hin]%elem_of_cons; [done|by eapply IH].
Qed.


End Relabel.

Section SpecPattern.

Lemma decimal_digit_is_digit (c : ascii) : decimal_digit c ↔ Re.is_digit c = true.
Proof.
  unfold decimal_digit. split.
  - cbn. rewrite !elem_of_cons, elem_of_nil.
    intros [->|[->|[->|[->|[->|[->|[->|[->|[->|[->|[]]]]]]]]]]]; reflexivity.
  - intros H. apply (bool_decide_unpack _).
    ascii_cases c; try discriminate H; vm_compute; exact I.
Qed.

Lemma decimal_digits_forallb (s : str) :
  Forall decimal_digit s ↔ forallb Re.is_digit s = true.
Proof.
  rewrite forallb_forall, Forall_forall. split; intros H c Hc.
  - apply decimal_digit_is_digit, H. by apply list_elem_of_In.
  - apply decimal_digit_is_digit, H. by apply list_elem_of_In.
Qed.

Lemma is_dot_not_lf (c : ascii) : Re.is_dot c = true ↔ c ≠ Str.LF.
Proof.
  split.
  - intros H ->. discriminate H.
  - intros H. ascii_cases c; try reflexivity. by destruct H.
Qed.

Lemma lf_free_dots (s : str) : Str.LF ∉ s ↔ forallb Re.is_dot s = true.
Proof.
  rewrite forallb_forall. split.
  - intros H c Hc. apply is_dot_not_lf. intros ->. by apply H, list_elem_of_In.
  - intros H Hin. apply list_elem_of_In, H, is_dot_not_lf in Hin. done.
Qed.

(** On a name without line feed, the pattern of the specification and the
    regular expression of the code accept the same names, with the same
    ID. *)
Lemma spec_conforming_embedded (name : str) (id : N) :
  Str.LF ∉ name →
  spec_conforming name id ↔ embedded_id name = Some id.
Proof.
  intros Hlf. unfold embedded_id. split.
  - intros (y & m & d & g & t & Hname & Hy1 & Hy2 & Hm1 & Hm2 & Hd1 & Hd2 & Hg1 & Hg2 & Hid).
    assert (Re.match_valid name = Some g) as ->; [|done].
    rewrite Hname, <- (app_nil_r (py ".md")).
    apply match_valid_intro; try done; try (by apply decimal_digits_forallb); [|by left].
    apply lf_free_dots. intros Hin. apply Hlf. rewrite Hname, !elem_of_app. auto 10.
  - destruct (Re.match_valid name) as [g|] eqn:Hg; [|done]. cbn [mbind option_bind].
    intros Hid.
    apply match_valid_shape in Hg
      as (y & m & d & t & e & Hname & ? & ? & ? & ? & ? & ? & ? & ? & ? & [->| ->]).
    + exists y, m, d, g, t. rewrite app_nil_r in Hname.
      rewrite !decimal_digits_forallb. done.
    + destruct Hlf. rewrite Hname, !elem_of_app. do 10 right. apply list_elem_of_here.
Qed.

Lemma new_filename_lf_free (today : str) (next_id : N) (filename : str) :
  Str.LF ∉ today → Str.LF ∉ new_filename today next_id filename.
Proof.
  intros Htoday. unfold new_filename. rewrite !elem_of_app.
  intros [?|[H|[H|[H|[H|H]]]]]; [done|..].
  - cbn in H. rewrite !elem_of_cons, elem_of_nil in H. by destruct H as [H|[]].
  - pose proof (format_d_digits 3 next_id) as Hd. rewrite forallb_forall in Hd.
    apply list_elem_of_In, Hd in H. discriminate H.
  - cbn in H. rewrite !elem_of_cons, elem_of_nil in H. by destruct H as [H|[]].
  - pose proof (slug_dots (Str.replace filename (py ".md") [])) as Hd.
    rewrite forallb_forall in Hd. apply list_elem_of_In, Hd in H. discriminate H.
  - cbn in H. rewrite !elem_of_cons, elem_of_nil in H.
    by destruct H as [H|[H|[H|[]]]].
Qed.

Lemma strftime_lf_free (today : date) : Str.LF ∉ strftime_Ymd today.
Proof.
  unfold strftime_Ymd. rewrite !elem_of_app.
  assert (∀ w n, Str.LF ∉ Dec.format_d w n) as Hd.
  { intros w n H. pose proof (format_d_digits w n) as Hf. rewrite forallb_forall in Hf.
    apply list_elem_of_In, Hf in H. discriminate H. }
  intros [H|[H|[H|[H|H]]]]; try (by apply Hd in H);
    cbn in H; rewrite !elem_of_cons, elem_of_nil in H; by destruct H as [H|[]].
Qed.

(** The name the loop computes fits the pattern of the specification, with
    the counter as its ID and no other. *)
Lemma new_filename_spec (today : date) (next_id : N) (filename : str) (k : N) :
  valid_date today →
  spec_conforming (new_filename (strftime_Ymd today) next_id filename) k ↔ k = next_id.
Proof.
  intros Hd. rewrite spec_conforming_embedded
    by apply new_filename_lf_free, strftime_lf_free.
  rewrite new_filename_id by done. split; [by intros [= ->]|by intros ->].
Qed.

End SpecPattern.

Section Frame.

(** The loop touches the file system at its own folder only. *)
Lemma rename_loop_frame (folder other : str) (names : list str) :
  other ≠ folder →
  ∀ n w, w_fs (rename_loop folder names n w).2 !! other = w_fs w !! other.
Proof.
  intros Hne. induction names as [|f rest IH]; intros n w; [done|].
  rewrite rename_loop_cons.
  destruct (negb (Str.endswith f (py ".md"))); [apply IH|].
  destruct (conforming f); [apply IH|].
  rewrite run_bind. cbn [date_today]. rewrite run_bind. cbn [print].
  rewrite run_bind. unfold shutil.move. cbn [emit w_fs w_refuses].
  destruct (w_fs w !! folder) as [[data|es]|]; try done.
  destruct (w_refuses w folder f _); [done|].
  destruct (shutil.move_entries _ _ _); [|done].
  rewrite IH. cbn [emit set_fs w_fs]. by apply lookup_insert_ne.
Qed.

Lemma process_folder_frame (folder other : str) (w : world) :
  other ≠ folder →
  w_fs (process_folder folder w).2 !! other = w_fs w !! other.
Proof.
  intros Hne. destruct (w_fs w !! folder) as [[data|es]|] eqn:Hfs.
  - by rewrite (process_folder_file folder w data).
  - unfold process_folder.
    rewrite run_bind. cbn [print]. rewrite run_bind. unfold os.path_exists.
    cbn [emit w_fs]. rewrite Hfs, bool_decide_eq_true_2 by eauto. cbn [negb].
    rewrite run_bind, (get_next_id_dir folder _ es) by done.
    rewrite run_bind. unfold os.listdir. cbn [emit w_fs]. rewrite Hfs.
    rewrite run_bind.
    pose proof (rename_loop_frame folder other (Entries.names es) Hne
                  (next_free (Entries.names es))
                  (emit (Stdout (py "Scanning " ++ folder ++ py "...")) w)) as H.
    cbn [emit w_fs] in *.
    by destruct (rename_loop _ _ _ _) as [[?|?] ?].
  - by rewrite process_folder_missing.
Qed.

Lemma process_folder_dates (folder : str) (w : world) :
  w_dates (process_folder folder w).2 = w_dates w
  ∧ w_refuses (process_folder folder w).2 = w_refuses w.
Proof.
  assert (∀ names n w0, w_dates (rename_loop folder names n w0).2 = w_dates w0
            ∧ w_refuses (rename_loop folder names n w0).2 = w_refuses w0) as Hloop.
  { induction names as [|f rest IH]; intros n w0; [done|].
    rewrite rename_loop_cons.
    destruct (negb (Str.endswith f (py ".md"))); [apply IH|].
    destruct (conforming f); [apply IH|].
    rewrite run_bind. cbn [date_today]. rewrite run_bind. cbn [print].
    rewrite run_bind. unfold shutil.move. cbn [emit w_fs w_refuses].
    destruct (w_fs w0 !! folder) as [[data|es]|]; try done.
    destruct (w_refuses w0 folder f _); [done|].
    destruct (shutil.move_entries _ _ _); [|done].
    destruct (IH (n + 1) (emit (Moved folder f (new_filename (strftime_Ymd (w_dates w0 (w_tick w0))) n f))
      (set_fs (<[folder:=Dir a]> (w_fs w0))
         (emit (Stdout (renaming_line f (new_filename (strftime_Ymd (w_dates w0 (w_tick w0))) n f)))
            (World (w_fs w0) (w_dates w0) (S (w_tick w0)) (w_refuses w0) (w_trace w0)))))) as [-> ->].
    done. }
  destruct (w_fs w !! folder) as [[data|es]|] eqn:Hfs.
  - by rewrite (process_folder_file folder w data).
  - unfold process_folder.
    rewrite run_bind. cbn [print]. rewrite run_bind. unfold os.path_exists.
    cbn [emit w_fs]. rewrite Hfs, bool_decide_eq_true_2 by eauto. cbn [negb].
    rewrite run_bind, (get_next_id_dir folder _ es) by done.
    rewrite run_bind. unfold os.listdir. cbn [emit w_fs]. rewrite Hfs.
    rewrite run_bind.
    pose proof (Hloop (Entries.names es) (next_free (Entries.names es))
                  (emit (Stdout (py "Scanning " ++ folder ++ py "...")) w)) as H.
    cbn [emit w_dates w_refuses] in *.
    by destruct (rename_loop _ _ _ _) as [[?|?] ?].
  - by rewrite process_folder_missing.
Qed.

End Frame.

Section Summary.

(** What a run of [process_folder] on a folder amounts to. *)
Lemma process_folder_summary (folder : str) (w : world) (es : entries) :
  (∀ t, valid_date (w_dates w t)) →
  w_fs w !! folder = Some (Dir es) →
  let refuses := w_refuses w folder in
  let first := next_free (Entries.names es) in
  let plan := planned (w_dates w) (w_tick w) (Entries.names es) first in
  ∃ r w' evs,
    process_folder folder w = (r, w')
    ∧ r = (if loop_ok refuses plan then Ok tt else Raise OSError)
    ∧ w_trace w' = w_trace w ++ evs
    ∧ evs = Stdout (scanning_line folder) :: loop_trace folder refuses plan
    ∧ moves evs = (fun p => (p.1.1, p.2)) <$> carried refuses plan
    ∧ w_fs w' = <[folder := Dir (relabel refuses (w_dates w) (w_tick w) es first)]> (w_fs w)
    ∧ w_dates w' = w_dates w
    ∧ w_refuses w' = w_refuses w
    ∧ w_tick w' = (w_tick w + loop_ticks refuses plan)%nat.
Proof.
  intros Hdates Hfs refuses first plan. eexists _, _, _.
  split; [by apply process_folder_dir|].
  cbn [w_trace w_fs w_dates w_refuses w_tick]. split; [done|]. split; [done|].
  split; [done|]. split; [|done]. apply moves_loop_trace.
Qed.

Lemma pairs_fst (plan : list (str * N * str)) :
  ((fun p : str * N * str => (p.1.1, p.2)) <$> plan).*1 = plan.*1.*1.
Proof. by rewrite <- !list_fmap_compose. Qed.

Lemma pairs_snd (plan : list (str * N * str)) :
  ((fun p : str * N * str => (p.1.1, p.2)) <$> plan).*2 = plan.*2.
Proof. by rewrite <- !list_fmap_compose. Qed.

(** The IDs of an initial part of the plan are the counter and its
    successors. *)
Lemma planned_prefix_ids (dates : nat → date) (tick : nat) (names : list str) (n : N)
    (part rest : list (str * N * str)) :
  (∀ t, valid_date (dates t)) →
  planned dates tick names n = part ++ rest →
  omap embedded_id part.*2 = arith n (length part).
Proof.
  intros Hdates Hk.
  pose proof (planned_news_ids dates Hdates names tick n) as Hids.
  pose proof (planned_ids dates names tick n) as Harith.
  rewrite Hk in Hids, Harith. rewrite !fmap_app in Hids. rewrite !fmap_app in Harith.
  rewrite length_app, seq_app, fmap_app in Harith.
  apply app_inj_1 in Hids as [Hids _]; [|by rewrite !length_fmap].
  apply app_inj_1 in Harith as [Harith _]; [|by rewrite !length_fmap, length_seq].
  apply omap_fmap_Some. by rewrite Hids, Harith.
Qed.

(** The IDs of the renames carried out are the counter and its
    successors. *)
Lemma carried_news_ids (refuses : str → str → bool) (dates : nat → date)
    (tick : nat) (names : list str) (n : N) :
  (∀ t, valid_date (dates t)) →
  omap embedded_id
    ((fun p => (p.1.1, p.2)) <$> carried refuses (planned dates tick names n)).*2
  = arith n (length (carried refuses (planned dates tick names n))).
Proof.
  intros Hdates. rewrite pairs_snd.
  destruct (carried_prefix refuses (planned dates tick names n)) as [k Hk].
  by apply (planned_prefix_ids dates tick names n _ k).
Qed.

Lemma carried_olds (refuses : str → str → bool) (dates : nat → date)
    (tick : nat) (names : list str) (n : N) :
  (carried refuses (planned dates tick names n)).*1.*1
  `prefix_of` List.filter needs_rename names.
Proof.
  rewrite <- (planned_olds dates names tick n).
  destruct (carried_prefix refuses (planned dates tick names n)) as [k Hk].
  rewrite Hk at 2. rewrite !fmap_app. by eexists.
Qed.

(** A name the code's pattern accepts and that ends in [.md] fits the
    pattern of the specification. *)
Lemma conforming_md_spec (name : str) :
  conforming name = true → Str.endswith name (py ".md") = true →
  ∃ k, spec_conforming name k.
Proof.
  intros [k Hk]%conforming_embedded Hmd. exists k. unfold embedded_id in Hk.
  destruct (Re.match_valid name) as [g|] eqn:Hg; [|done]. cbn [mbind option_bind] in Hk.
  apply match_valid_shape in Hg
    as (y & m & d & t & e & Hname & ? & ? & ? & ? & ? & ? & ? & ? & ? & [->| ->]).
  - exists y, m, d, g, t. rewrite app_nil_r in Hname.
    rewrite !decimal_digits_forallb. done.
  - apply endswith_true in Hmd as [pre Hpre]. rewrite Hname in Hpre.
    change (py ".md") with (["."%char; "m"%char] ++ ["d"%char]) in Hpre.
    rewrite !app_assoc in Hpre. apply app_inj_tail in Hpre as [_ Hpre]. discriminate Hpre.
Qed.

(** A name that ends in [.md] and does not fit the pattern of the
    specification passes both guards. *)
Lemma not_spec_needs_rename (name : str) :
  Str.endswith name (py ".md") = true → (∀ k, ¬ spec_conforming name k) →
  needs_rename name = true.
Proof.
  intros Hmd Hno. unfold needs_rename. rewrite Hmd. cbn [andb].
  destruct (conforming name) eqn:Hc; [|done].
  destruct (conforming_md_spec name Hc Hmd) as [k Hk]. by destruct (Hno k).
Qed.

End Summary.

Section Persist.

(** A name that needs no rename stays in its folder, whatever folder is
    processed. *)
Lemma process_folder_keeps (folder folder' name : str) (w : world) (es : entries) :
  (∀ t, valid_date (w_dates w t)) →
  w_fs w !! folder = Some (Dir es) →
  name ∈ Entries.names es → needs_rename name = false →
  ∃ es', w_fs (process_folder folder' w).2 !! folder = Some (Dir es')
         ∧ name ∈ Entries.names es'.
Proof.
  intros Hdates Hfs Hin Hname. destruct (decide (folder = folder')) as [<-|Hne].
  - rewrite (process_folder_dir folder w es) by done. cbn [snd w_fs].
    eexists. split; [apply lookup_insert_eq|].
    apply list_elem_of_fmap in Hin as ([nm x] & -> & Hin).
    apply list_elem_of_fmap. exists (nm, x). split; [done|]. by apply relabel_kept.
  - exists es. by rewrite process_folder_frame.
Qed.

Lemma process_folders_keeps (folders : list str) (folder name : str) :
  ∀ (w : world) (es : entries),
  (∀ t, valid_date (w_dates w t)) →
  w_fs w !! folder = Some (Dir es) →
  name ∈ Entries.names es → needs_rename name = false →
  ∃ es', w_fs (process_folders folders w).2 !! folder = Some (Dir es')
         ∧ name ∈ Entries.names es'.
Proof.
  induction folders as [|f rest IH]; intros w es Hdates Hfs Hin Hname; [by exists es|].
  cbn [process_folders]. rewrite run_bind.
  destruct (process_folder_keeps folder f name w es) as (es1 & Hfs1 & Hin1); [done..|].
  pose proof (process_folder_dates f w) as [Hd _].
  destruct (process_folder f w) as [[[]|e] w1]; cbn [snd] in *.
  - apply (IH w1 es1); [by rewrite Hd|done..].
  - by exists es1.
Qed.

End Persist.

Section Orchestrator.

(** The trace of one call of [process_folder], with where its renames
    ended up. *)
Lemma process_folder_log (folder : str) (w : world) :
  (∀ t, valid_date (w_dates w t)) →
  ∃ (rs : list (str * str)) (failed : option (str * str)),
    w_trace (process_folder folder w).2
    = w_trace w ++ folder_events (folder, rs, failed)
    ∧ ((process_folder folder w).1 = Ok tt → failed = None)
    ∧ (is_Some failed → (process_folder folder w).1 = Raise OSError)
    ∧ (∀ old new, (old, new) ∈ rs →
         needs_rename new = false
         ∧ ∃ es', w_fs (process_folder folder w).2 !! folder = Some (Dir es')
                  ∧ new ∈ Entries.names es')
    ∧ (∀ old new, (old, new) ∈ rs ∨ failed = Some (old, new) → Str.LF ∉ new).
Proof.
  intros Hdates. destruct (w_fs w !! folder) as [[data|es]|] eqn:Hfs.
  - exists [], None. rewrite (process_folder_file folder w data) by done.
    cbn [fst snd]. split; [done|]. split; [done|]. split; [by intros []|].
    split; [by intros ?? ?%elem_of_nil|]. by intros ?? [?%elem_of_nil|?].
  - set (refuses := w_refuses w folder).
    set (plan := planned (w_dates w) (w_tick w) (Entries.names es)
                   (next_free (Entries.names es))).
    exists ((fun p : str * N * str => (p.1.1, p.2)) <$> carried refuses plan),
           (match plan !! length (carried refuses plan) with
            | Some p => Some (p.1.1, p.2)
            | None => None
            end).
    rewrite (process_folder_dir folder w es) by done. cbn zeta.
    fold refuses plan. cbn [fst snd w_trace w_fs].
    split; [|split; [|split; [|split]]].
    + unfold folder_events. cbn [fst snd]. do 2 f_equal.
      rewrite loop_trace_shape. f_equal. by destruct (plan !! _).
    + destruct (loop_ok refuses plan) eqn:Hok; [|done]. intros _.
      rewrite carried_ok by done. by rewrite lookup_ge_None_2.
    + destruct (loop_ok refuses plan) eqn:Hok; [|done].
      rewrite carried_ok by done. rewrite lookup_ge_None_2 by done. by intros [].
    + intros old new [id Hin]%moves_of_plan. split.
      * apply carried_elem, planned_elem in Hin as (_ & _ & _ & t & ->).
        by apply new_filename_skipped.
      * eexists. split; [apply lookup_insert_eq|]. by eapply relabel_new_in.
    + assert (∀ p, p ∈ plan → Str.LF ∉ p.2) as Hlf.
      { intros [[old id] new] (_ & _ & _ & t & ->)%planned_elem.
        apply new_filename_lf_free, strftime_lf_free. }
      intros old new [[id Hin]%moves_of_plan|Hfail].
      * by apply (Hlf (old, id, new)), (carried_elem refuses).
      * destruct (plan !! _) as [p|] eqn:Hp; [|done]. injection Hfail as <- <-.
        by eapply Hlf, list_elem_of_lookup_2.
  - exists [], None. rewrite process_folder_missing by done.
    cbn [fst snd]. split; [done|]. split; [done|]. split; [by intros []|].
    split; [by intros ?? ?%elem_of_nil|]. by intros ?? [?%elem_of_nil|?].
Qed.

Lemma stdout_app (a b : list event) : stdout (a ++ b) = stdout a ++ stdout b.
Proof. apply omap_app. Qed.

Lemma moves_app (a b : list event) : moves (a ++ b) = moves a ++ moves b.
Proof. apply omap_app. Qed.

Lemma stdout_renames (folder : str) (rs : list (str * str)) :
  stdout (rs ≫= rename_events folder) = (fun r => renaming_line r.1 r.2) <$> rs.
Proof.
  induction rs as [|r rs IH]; [done|].
  cbn [mbind list_bind fmap list_fmap]. rewrite stdout_app, IH. done.
Qed.

Lemma moves_renames (folder : str) (rs : list (str * str)) :
  moves (rs ≫= rename_events folder) = rs.
Proof.
  induction rs as [|[old new] rs IH]; [done|].
  cbn [mbind list_bind]. rewrite moves_app, IH. done.
Qed.

Lemma stdout_folder_events (fr : str * list (str * str) * option (str * str)) :
  stdout (folder_events fr)
  = scanning_line fr.1.1
    :: ((fun r => renaming_line r.1 r.2) <$> (fr.1.2 ++ option_list fr.2)).
Proof.
  destruct fr as [[f rs] failed]. unfold folder_events. cbn [fst snd].
  change (Stdout ?l :: ?a ++ ?b) with ([Stdout l] ++ a ++ b).
  rewrite !stdout_app, stdout_renames, fmap_app. cbn [app stdout omap list_omap].
  do 2 f_equal. by destruct failed.
Qed.

Lemma moves_folder_events (fr : str * list (str * str) * option (str * str)) :
  moves (folder_events fr) = fr.1.2.
Proof.
  destruct fr as [[f rs] failed]. unfold folder_events. cbn [fst snd].
  change (Stdout ?l :: ?a ++ ?b) with ([Stdout l] ++ a ++ b).
  rewrite !moves_app, moves_renames. cbn [app moves omap list_omap].
  destruct failed; cbn; by rewrite app_nil_r.
Qed.

Lemma stdout_log (log : list (str * list (str * str) * option (str * str))) :
  stdout (log ≫= folder_events)
  = log ≫= (fun fr => scanning_line fr.1.1
                      :: ((fun r => renaming_line r.1 r.2)
                            <$> (fr.1.2 ++ option_list fr.2))).
Proof.
  induction log as [|fr log IH]; [done|].
  cbn [mbind list_bind]. by rewrite stdout_app, IH, stdout_folder_events.
Qed.

Lemma moves_log (log : list (str * list (str * str) * option (str * str))) :
  moves (log ≫= folder_events) = log ≫= (fun fr => fr.1.2).
Proof.
  induction log as [|fr log IH]; [done|].
  cbn [mbind list_bind]. by rewrite moves_app, IH, moves_folder_events.
Qed.

Lemma stdout_log_length (log : list (str * list (str * str) * option (str * str))) :
  length (stdout (log ≫= folder_events))
  = (length log + length (moves (log ≫= folder_events))
     + length (omap snd log))%nat.
Proof.
  rewrite stdout_log, moves_log.
  induction log as [|[[f rs] failed] log IH]; [done|].
  cbn [mbind list_bind fst snd omap list_omap].
  rewrite !length_app, IH. cbn [length]. rewrite length_fmap, length_app.
  destruct failed; cbn; lia.
Qed.

Lemma moved_log (log : list (str * list (str * str) * option (str * str)))
    (folder old new : str) :
  Moved folder old new ∈ log ≫= folder_events →
  ∃ fr, fr ∈ log ∧ fr.1.1 = folder ∧ (old, new) ∈ fr.1.2.
Proof.
  intros (fr & Hev & Hfr)%list_elem_of_bind. exists fr. split; [done|].
  destruct fr as [[f rs] failed]. unfold folder_events in Hev. cbn [fst snd] in *.
  apply elem_of_cons in Hev as [?|Hev]; [done|].
  apply elem_of_app in Hev as [Hev|Hev].
  - apply list_elem_of_bind in Hev as ([o n] & Hev & Hin).
    unfold rename_events in Hev. cbn [fst snd] in Hev.
    apply elem_of_cons in Hev as [?|Hev]; [done|].
    apply list_elem_of_singleton in Hev. by injection Hev as -> -> ->.
  - destruct failed; [|by apply elem_of_nil in Hev].
    by apply list_elem_of_singleton in Hev.
Qed.

Lemma process_folders_app (pre post : list str) (w w1 : world) :
  process_folders pre w = (Ok tt, w1) →
  process_folders (pre ++ post) w = process_folders post w1.
Proof.
  revert w. induction pre as [|f pre IH]; intros w.
  - cbn. by intros [= ->].
  - cbn [process_folders app]. rewrite !run_bind.
    destruct (process_folder f w) as [[[]|e] w0]; [apply IH|done].
Qed.

(** The trace of a run over a list of folders, folder by folder. *)
Lemma process_folders_log (folders : list str) : ∀ w : world,
  (∀ t, valid_date (w_dates w t)) →
  ∃ log : list (str * list (str * str) * option (str * str)),
    w_trace (process_folders folders w).2 = w_trace w ++ (log ≫= folder_events)
    ∧ log.*1.*1 `prefix_of` folders
    ∧ ((process_folders folders w).1 = Ok tt →
       log.*1.*1 = folders ∧ Forall (fun fr => fr.2 = None) log)
    ∧ (∀ i fr, log !! i = Some fr → is_Some fr.2 → S i = length log)
    ∧ (∀ fr old new, fr ∈ log → (old, new) ∈ fr.1.2 →
         ∃ es', w_fs (process_folders folders w).2 !! fr.1.1 = Some (Dir es')
                ∧ new ∈ Entries.names es')
    ∧ (∀ fr old new, fr ∈ log → (old, new) ∈ fr.1.2 ∨ fr.2 = Some (old, new) →
         Str.LF ∉ new).
Proof.
  induction folders as [|f rest IH]; intros w Hdates.
  - exists []. cbn. rewrite app_nil_r. split; [done|]. split; [done|]. split; [done|].
    split; [by intros ?? ?|].
    split; by intros ??? ?%elem_of_nil.
  - destruct (process_folder_log f w Hdates) as (rs & failed & Htr & Hok & Hfail & Hfs & Hlf).
    pose proof (process_folder_dates f w) as [Hd _].
    cbn [process_folders]. rewrite run_bind.
    destruct (process_folder f w) as [[[]|e] w1] eqn:Hrun; cbn [fst snd] in *.
    + destruct (IH w1) as (log & Htr' & Hpre & Hall & Hlast & Hfs' & Hlf');
        [by rewrite Hd|].
      rewrite (Hok eq_refl) in *.
      exists ((f, rs, None) :: log). cbn [mbind list_bind].
      split; [by rewrite Htr', Htr, <- app_assoc|].
      split; [cbn [fmap list_fmap fst]; by apply prefix_cons|].
      split; [|split; [|split]].
      * intros Hr. destruct (Hall Hr) as [Heq HF]. split; [|by constructor].
        rewrite !fmap_cons. by rewrite Heq.
      * intros [|i] fr; cbn [lookup list_lookup length].
        -- intros [= <-] [? [=]].
        -- intros Hi Hsome. f_equal. by apply (Hlast i fr).
      * intros fr old new [->|Hin]%elem_of_cons Hrs; cbn [fst snd] in *.
        -- destruct (Hfs old new Hrs) as (Hskip & es1 & Hes1 & Hnew).
           apply (process_folders_keeps rest f new w1 es1); [by rewrite Hd|done..].
        -- by apply (Hfs' fr old new).
      * intros fr old new [->|Hin]%elem_of_cons Hrs; cbn [fst snd] in *.
        -- destruct Hrs as [Hrs|?]; [|done]. apply (Hlf old new). by left.
        -- by apply (Hlf' fr old new).
    + exists [(f, rs, failed)]. cbn [mbind list_bind fmap list_fmap fst snd].
      rewrite app_nil_r. split; [done|].
      split; [by apply prefix_cons, prefix_nil|]. split; [done|].
      split; [|split].
      * intros [|i] fr; cbn [lookup list_lookup length]; [done|].
        by intros ?.
      * intros fr old new ->%list_elem_of_singleton Hrs. cbn [fst snd] in *.
        by destruct (Hfs old new Hrs) as (_ & es1 & ? & ?); exists es1.
      * intros fr old new ->%list_elem_of_singleton Hrs. cbn [fst snd] in *.
        by apply (Hlf old new).
Qed.

End Orchestrator.

Section SecondRun.

(** Running the normaliser again right after a run that completed
    renames nothing. *)
Lemma process_folder_again (folder : str) (w w' : world) (es : entries) :
  (∀ t, valid_date (w_dates w t)) →
  w_fs w !! folder = Some (Dir es) →
  process_folder folder w = (Ok tt, w') →
  process_folder folder w' = (Ok tt, emit (Stdout (scanning_line folder)) w').
Proof.
  intros Hdates Hfs Hrun. rewrite (process_folder_dir folder w es Hdates Hfs) in Hrun.
  cbn zeta in Hrun.
  destruct (loop_ok _ _) eqn:Hok; [|done]. injection Hrun as <-.
  set (es' := relabel _ _ _ es _).
  assert (∀ name, name ∈ Entries.names es' → needs_rename name = false) as Hskip
    by (intros name; by apply relabel_skipped).
  rewrite (process_folder_dir folder _ es'); cbn [w_fs w_dates w_tick w_trace w_refuses].
  - cbn zeta.
    rewrite (planned_nil _ (Entries.names es')), (relabel_id _ _ es') by exact Hskip.
    rewrite insert_insert_eq. unfold emit.
    cbn [w_fs w_dates w_tick w_trace w_refuses length loop_ok forallb loop_ticks loop_trace].
    by rewrite Nat.add_0_r.
  - done.
  - apply lookup_insert_eq.
Qed.

End SecondRun.
Section Titles.


(** When [.md] occurs in a name only as its suffix, replacing it
    everywhere strips exactly that suffix. *)
Lemma replace_md_suffix_only (stem : str) :
  (∀ a b, stem ≠ a ++ py ".md" ++ b) →
  Str.replace (stem ++ py ".md") (py ".md") [] = stem.
Proof.
  unfold Str.replace. induction stem as [|c stem IH]; intros Hocc; [done|].
  cbn [app Str.replace_from].
  assert (Str.startswith (c :: stem ++ py ".md") (py ".md") = false) as ->.
  { apply not_true_is_false. unfold Str.startswith. rewrite bool_decide_eq_true.
    intros [k Hk]. cbn in Hk. injection Hk as -> Hk.
    destruct stem as [|c1 [|c2 stem]]; cbn in Hk; try discriminate Hk.
    injection Hk as -> -> _. by apply (Hocc [] stem). }
  f_equal. apply IH. intros a b ->. by apply (Hocc (c :: a) b).
Qed.

(** On such names the code and the wording of the specification agree. *)
Lemma clean_title_spec_title (stem : str) :
  (∀ a b, stem ≠ a ++ py ".md" ++ b) →
  clean_title (stem ++ py ".md") = spec_title (stem ++ py ".md").
Proof.
  intros Hocc. unfold clean_title, spec_title.
  rewrite replace_md_suffix_only, endswith_app by done.
  rewrite length_app. cbn [length py list_ascii_of_string].
  replace (length stem + 3 - 3)%nat with (length stem) by lia.
  by rewrite take_app_length.
Qed.




End Titles.
Section Main.

Lemma targets_distinct : py "projects" ≠ py "templates".
Proof. intros H. vm_compute in H. discriminate H. Qed.

Lemma main_unfold (w : world) :
  main w = match process_folder (py "projects") w with
           | (Ok _, w1) =>
               match process_folder (py "templates") w1 with
               | (Ok _, w2) => (Ok tt, w2)
               | (Raise e, w2) => (Raise e, w2)
               end
           | (Raise e, w1) => (Raise e, w1)
           end.
Proof.
  unfold main, TARGET_FOLDERS. cbn [process_folders]. rewrite !run_bind.
  destruct (process_folder (py "projects") w) as [[[]|e] w1]; [|done].
  rewrite run_bind. by destruct (process_folder (py "templates") w1) as [[[]|e] w2].
Qed.

End Main.

Section RunFacts.

Context (refuses : str → str → bool).
Context (dates : nat → date) (Hdates : ∀ t, valid_date (dates t)).

(** The [i]-th rename carried out by the loop. *)
Lemma carried_move_lookup (names : list str) (tick : nat) (n : N) (i : nat)
    (old new : str) :
  ((fun p : str * N * str => (p.1.1, p.2))
     <$> carried refuses (planned dates tick names n)) !! i = Some (old, new) →
  new = new_filename (strftime_Ymd (dates (tick + i)%nat)) (n + N.of_nat i) old
  ∧ List.filter needs_rename names !! i = Some old.
Proof using Type.
  intros ([[o id] nw] & [= -> ->] & Hi)%list_lookup_fmap_Some.
  apply carried_lookup, planned_lookup in Hi as (-> & -> & Hold). done.
Qed.

Lemma filter_lookup_elem (names : list str) (i : nat) (old : str) :
  List.filter needs_rename names !! i = Some old →
  old ∈ names ∧ needs_rename old = true.
Proof using Type.
  intros Hin%list_elem_of_lookup_2%list_elem_of_In%List.filter_In.
  destruct Hin as [Hin Hn]. by apply list_elem_of_In in Hin.
Qed.


(** When no rename is refused, every name that passes the guards is the
    source of a move. *)
Lemma carried_complete (names : list str) (tick : nat) (n : N) (name : str) :
  loop_ok refuses (planned dates tick names n) = true →
  name ∈ names → needs_rename name = true →
  ∃ new, (name, new) ∈ (fun p : str * N * str => (p.1.1, p.2))
                         <$> carried refuses (planned dates tick names n).
Proof using Type.
  intros Hok Hin Hname. rewrite carried_ok by done.
  destruct (planned_complete dates names name tick n Hin Hname) as (t & id & Hp).
  eexists. apply list_elem_of_fmap. by exists (name, id, new_filename (strftime_Ymd (dates t)) id name).
Qed.

End RunFacts.

Section Lines.

Lemma lines_of_one (text : str) : Str.LF ∉ text → lines_of text = 1%nat.
Proof.
  unfold lines_of. induction text as [|c text IH]; [done|].
  intros [Hc Hrest]%not_elem_of_cons. cbn [List.filter].
  destruct (Ascii.eqb c Str.LF) eqn:E; [by apply Ascii.eqb_eq in E|]. by apply IH.
Qed.

Lemma scanning_line_one (folder : str) :
  Str.LF ∉ folder → lines_of (scanning_line folder) = 1%nat.
Proof.
  intros H%lf_free_dots. apply lines_of_one, lf_free_dots.
  unfold scanning_line. by rewrite !forallb_app, H.
Qed.

Lemma renaming_line_one (old new : str) :
  Str.LF ∉ old → Str.LF ∉ new → lines_of (renaming_line old new) = 1%nat.
Proof.
  intros Ho%lf_free_dots Hn%lf_free_dots. apply lines_of_one, lf_free_dots.
  unfold renaming_line. by rewrite !forallb_app, Ho, Hn.
Qed.

End Lines.

Section WorkedNames.

Lemma lf_name_spec : spec_conforming lf_name 12.
Proof.
  exists (py "2024"), (py "01"), (py "01"), (py "12"), (py "a" ++ [Str.LF] ++ py "b").
  rewrite !decimal_digits_forallb. by vm_compute.
Qed.

Lemma lf_tail_name_not_spec (k : N) : ¬ spec_conforming lf_tail_name k.
Proof.
  intros (y & m & d & g & title & Hname & _).
  change (py ".md") with (["."%char; "m"%char] ++ ["d"%char]) in Hname.
  unfold lf_tail_name in Hname. rewrite !app_assoc in Hname.
  apply app_inj_tail in Hname as [_ Hname]. discriminate Hname.
Qed.

Lemma scenario_A_lf_free : lf_free (Entries.names scenario_A).
Proof. unfold lf_free. repeat constructor; by apply lf_free_dots. Qed.

End WorkedNames.

(** * The claims *)

(** C1. In every run of the normaliser on a folder, whether it completes
    or is stopped by a move that fails, the files renamed are the first
    candidates in enumeration order (all of them when the run completes),
    and the [i]-th of them receives the ID [first + i], where [first] is
    the scanner's next-ID value: the IDs are distinct, increasing and
    without gaps, each new name is conforming with exactly that ID, and
    every ID is above each ID the code's pattern finds in a name already
    in the folder; when no name of the folder holds a line feed, these are
    the IDs of the conforming names. *)
Theorem C1_ids_contiguous_from_next_id (folder : str) (w : world) (es : entries) :
  (∀ t, valid_date (w_dates w t)) →
  w_fs w !! folder = Some (Dir es) →
  ∃ (first : N) (r : result unit) (w' : world) (evs : list event),
    get_next_id folder w = (Ok first, w)
    ∧ process_folder folder w = (r, w')
    ∧ w_trace w' = w_trace w ++ evs
    ∧ (moves evs).*1 `prefix_of` List.filter needs_rename (Entries.names es)
    ∧ (r = Ok tt → (moves evs).*1 = List.filter needs_rename (Entries.names es))
    ∧ ((∀ old new, w_refuses w folder old new = false) → r = Ok tt)
    ∧ (∀ i old new, moves evs !! i = Some (old, new) →
         ∀ k, spec_conforming new k ↔ k = first + N.of_nat i)
    ∧ let ids := omap embedded_id (moves evs).*2 in
      length ids = length (moves evs)
      ∧ ids = (fun i => first + N.of_nat i) <$> seq 0 (length ids)
      ∧ NoDup ids
      ∧ (∀ i j a b, ids !! i = Some a → ids !! j = Some b → (i < j)%nat → a < b)
      ∧ (∀ id name k, id ∈ ids → name ∈ Entries.names es →
           embedded_id name = Some k → k < id)
      ∧ (lf_free (Entries.names es) →
         ∀ id name k, id ∈ ids → name ∈ Entries.names es →
           spec_conforming name k → k < id).
Proof.
  intros Hdates Hfs.
  destruct (process_folder_summary folder w es Hdates Hfs)
    as (r & w' & evs & Hrun & Hr & Htrace & _ & Hmoves & _).
  exists (next_free (Entries.names es)), r, w', evs.
  split; [by apply get_next_id_dir|]. split; [done|]. split; [done|].
  rewrite Hmoves, pairs_fst. split; [apply carried_olds|].
  split.
  { intros Hok. rewrite Hr in Hok. destruct (loop_ok _ _) eqn:Hl; [|done].
    rewrite carried_ok by done. apply planned_olds. }
  split.
  { intros Hno. rewrite Hr. by rewrite loop_ok_all. }
  split.
  { intros i old new [-> _]%carried_move_lookup k. by apply new_filename_spec. }
  cbn zeta. rewrite carried_news_ids by done.
  rewrite arith_length, length_fmap.
  split; [done|]. split; [done|]. split; [apply arith_NoDup|]. split; [|split].
  - intros i j a b [-> _]%arith_lookup [-> _]%arith_lookup Hij. lia.
  - intros id name k Hid%arith_elem Hin Hk.
    pose proof (next_free_above _ _ _ Hin Hk). lia.
  - intros Hlf id name k Hid%arith_elem Hin Hk.
    apply spec_conforming_embedded in Hk;
      [|by apply (proj1 (Forall_forall _ _) Hlf)].
    pose proof (next_free_above _ _ _ Hin Hk). lia.
Qed.

Lemma C1_witness :
  ∃ (first : N) (r : result unit) (w' : world) (evs : list event),
    get_next_id (py "projects") example_world = (Ok first, example_world)
    ∧ process_folder (py "projects") example_world = (r, w')
    ∧ w_trace w' = w_trace example_world ++ evs
    ∧ (moves evs).*1 `prefix_of` List.filter needs_rename (Entries.names scenario_A)
    ∧ (r = Ok tt → (moves evs).*1 = List.filter needs_rename (Entries.names scenario_A))
    ∧ ((∀ old new, w_refuses example_world (py "projects") old new = false) → r = Ok tt)
    ∧ (∀ i old new, moves evs !! i = Some (old, new) →
         ∀ k, spec_conforming new k ↔ k = first + N.of_nat i)
    ∧ let ids := omap embedded_id (moves evs).*2 in
      length ids = length (moves evs)
      ∧ ids = (fun i => first + N.of_nat i) <$> seq 0 (length ids)
      ∧ NoDup ids
      ∧ (∀ i j a b, ids !! i = Some a → ids !! j = Some b → (i < j)%nat → a < b)
      ∧ (∀ id name k, id ∈ ids → name ∈ Entries.names scenario_A →
           embedded_id name = Some k → k < id)
      ∧ (lf_free (Entries.names scenario_A) →
         ∀ id name k, id ∈ ids → name ∈ Entries.names scenario_A →
           spec_conforming name k → k < id).
Proof.
  apply (C1_ids_contiguous_from_next_id (py "projects") example_world scenario_A).
  - intros t. vm_compute. done.
  - vm_compute. reflexivity.
Defined.

(** C1, as stated, fails on a conforming name that holds a line feed: the
    code's pattern does not match it, so the file is renamed, and with ID
    1 although the folder holds the conforming ID 12. *)
Lemma C1_counterexample :
  lf_name ∈ Entries.names [(lf_name, File (py "n"))]
  ∧ w_fs lf_world !! py "projects" = Some (Dir [(lf_name, File (py "n"))])
  ∧ spec_conforming lf_name 12
  ∧ get_next_id (py "projects") lf_world = (Ok 1, lf_world)
  ∧ (process_folder (py "projects") lf_world).1 = Ok tt
  ∧ moves (w_trace (process_folder (py "projects") lf_world).2)
    = [(lf_name, py "2026-11-04-001-2024-01-01-12-ab.md")]
  ∧ spec_conforming (py "2026-11-04-001-2024-01-01-12-ab.md") 1
  ∧ ¬ (12 < 1).
Proof.
  split; [apply list_elem_of_here|]. split; [by vm_compute|].
  split; [apply lf_name_spec|]. split; [by vm_compute|]. split; [by vm_compute|].
  split; [by vm_compute|]. split; [|lia].
  exists (py "2026"), (py "11"), (py "04"), (py "001"), (py "2024-01-01-12-ab").
  rewrite !decimal_digits_forallb. by vm_compute.
Qed.

(** C2. For a folder whose names hold no line feed, the scanner returns
    the smallest positive integer above every ID embedded in a conforming
    name of the folder, and 1 when the folder holds no conforming name; it
    returns 1 when the path does not exist; and on every folder it returns
    a positive integer above every ID its pattern finds, so that names
    which do not match never make it fail. *)
Theorem C2_get_next_id_least_above (path : str) (w : world) :
  (w_fs w !! path = None → get_next_id path w = (Ok 1, w))
  ∧ ∀ es, w_fs w !! path = Some (Dir es) →
      ∃ n, get_next_id path w = (Ok n, w)
        ∧ 1 <= n
        ∧ (∀ name k, name ∈ Entries.names es → embedded_id name = Some k → k < n)
        ∧ (lf_free (Entries.names es) →
           (∀ name k, name ∈ Entries.names es → spec_conforming name k → k < n)
           ∧ (∀ m, 1 <= m →
                (∀ name k, name ∈ Entries.names es → spec_conforming name k → k < m) →
                n <= m)
           ∧ ((∀ name k, name ∈ Entries.names es → ¬ spec_conforming name k) → n = 1)).
Proof.
  split; [by apply get_next_id_missing|]. intros es Hfs.
  exists (next_free (Entries.names es)).
  split; [by apply get_next_id_dir|]. split; [unfold next_free; lia|].
  split; [apply next_free_above|]. intros Hlf.
  assert (∀ name k, name ∈ Entries.names es →
            spec_conforming name k ↔ embedded_id name = Some k) as Hspec.
  { intros name k Hin. apply spec_conforming_embedded.
    by apply (proj1 (Forall_forall _ _) Hlf). }
  split; [|split].
  - intros name k Hin Hk. apply (next_free_above _ name k Hin). by apply Hspec.
  - intros m Hm Habove. apply next_free_least; [done|].
    intros name k Hin Hk. apply (Habove name k Hin). by apply Hspec.
  - intros Hnone. apply N.le_antisymm; [|unfold next_free; lia].
    apply next_free_least; [lia|]. intros name k Hin Hk.
    destruct (Hnone name k Hin). by apply Hspec.
Qed.

Lemma C2_witness :
  ∃ n, get_next_id (py "projects") example_world = (Ok n, example_world)
    ∧ 1 <= n
    ∧ (∀ name k, name ∈ Entries.names scenario_A → spec_conforming name k → k < n)
    ∧ (∀ m, 1 <= m →
         (∀ name k, name ∈ Entries.names scenario_A → spec_conforming name k → k < m) →
         n <= m).
Proof.
  destruct (proj2 (C2_get_next_id_least_above (py "projects") example_world) scenario_A)
    as (n & Hrun & Hpos & _ & Hlf); [vm_compute; reflexivity|].
  destruct Hlf as (Habove & Hleast & _).
  { apply scenario_A_lf_free. }
  exists n. done.
Defined.

(** C2, as stated, fails on names with a line feed: a conforming name with
    a line feed inside its title is not counted, and a name that ends in a
    line feed after its [.md], which is not conforming, is counted. *)
Lemma C2_counterexample :
  (w_fs lf_world !! py "projects" = Some (Dir [(lf_name, File (py "n"))])
   ∧ spec_conforming lf_name 12
   ∧ get_next_id (py "projects") lf_world = (Ok 1, lf_world)
   ∧ ¬ (12 < 1))
  ∧ (w_fs lf_tail_world !! py "projects" = Some (Dir [(lf_tail_name, File (py "n"))])
     ∧ (∀ k, ¬ spec_conforming lf_tail_name k)
     ∧ get_next_id (py "projects") lf_tail_world = (Ok 13, lf_tail_world)
     ∧ 13 ≠ 1).
Proof.
  split.
  - split; [by vm_compute|]. split; [apply lf_name_spec|]. split; [by vm_compute|]. lia.
  - split; [by vm_compute|]. split; [apply lf_tail_name_not_spec|].
    split; [by vm_compute|]. lia.
Qed.

(** C3. In every run of the normaliser, the [i]-th rename takes a name
    that ends in [.md] and that the pattern does not match, and gives it
    the name date, hyphen, ID, hyphen, title, [.md], where the ID segment
    is the counter [first + i] in decimal, padded with zeros to three
    digits and wider when the counter has more; the new name is conforming
    with that ID. When the run completes, every name of the folder that
    ends in [.md] and is not conforming has been renamed so. *)
Theorem C3_new_name_conforming (folder : str) (w : world) (es : entries) :
  (∀ t, valid_date (w_dates w t)) →
  w_fs w !! folder = Some (Dir es) →
  ∃ (first : N) (r : result unit) (w' : world) (evs : list event),
    get_next_id folder w = (Ok first, w)
    ∧ process_folder folder w = (r, w')
    ∧ w_trace w' = w_trace w ++ evs
    ∧ (∀ i old new, moves evs !! i = Some (old, new) →
         let next_id := first + N.of_nat i in
         let id_str := Dec.format_d 3 next_id in
         old ∈ Entries.names es
         ∧ Str.endswith old (py ".md") = true
         ∧ conforming old = false
         ∧ new = strftime_Ymd (w_dates w (w_tick w + i)%nat) ++ py "-" ++ id_str
                 ++ py "-" ++ clean_title old ++ py ".md"
         ∧ id_str = replicate (3 - length (Dec.decimal next_id)) "0"%char
                    ++ Dec.decimal next_id
         ∧ (3 <= length id_str)%nat
         ∧ (next_id < 1000 → length id_str = 3%nat)
         ∧ (1000 <= next_id → id_str = Dec.decimal next_id)
         ∧ Dec.int_of_digits id_str = Some next_id
         ∧ spec_conforming new next_id
         ∧ Re.match_valid new = Some id_str
         ∧ conforming new = true
         ∧ embedded_id new = Some next_id)
    ∧ (r = Ok tt →
       ∀ name, name ∈ Entries.names es → Str.endswith name (py ".md") = true →
         (∀ k, ¬ spec_conforming name k) →
         ∃ i new, moves evs !! i = Some (name, new))
    ∧ ((∀ old new, w_refuses w folder old new = false) → r = Ok tt).
Proof.
  intros Hdates Hfs.
  destruct (process_folder_summary folder w es Hdates Hfs)
    as (r & w' & evs & Hrun & Hr & Htrace & _ & Hmoves & _).
  exists (next_free (Entries.names es)), r, w', evs.
  split; [by apply get_next_id_dir|]. split; [done|]. split; [done|].
  rewrite Hmoves. split; [|split].
  - intros i old new [-> Hold]%carried_move_lookup next_id id_str.
    apply filter_lookup_elem in Hold as [Hin Hold].
    unfold needs_rename in Hold. apply andb_true_iff in Hold as [Hmd Hc].
    apply negb_true_iff in Hc.
    split; [done|]. split; [done|]. split; [done|]. split; [reflexivity|].
    split; [reflexivity|]. split; [apply format_d_length_ge|].
    split; [intros Hn; apply format_d_length; [auto|exact Hn]|].
    split; [intros Hn; by apply format_d_wide|].
    split; [apply int_of_format_d|].
    split; [by apply new_filename_spec|].
    split; [by apply new_filename_match|].
    split; [|by apply new_filename_id].
    apply conforming_true. rewrite new_filename_match by done. eauto.
  - intros Hok name Hin Hmd Hno. rewrite Hr in Hok.
    destruct (loop_ok _ _) eqn:Hl; [|done].
    destruct (carried_complete _ (w_dates w) (Entries.names es) (w_tick w)
                (next_free (Entries.names es)) name Hl Hin) as [new Hnew];
      [by apply not_spec_needs_rename|].
    apply list_elem_of_lookup_1 in Hnew as [i Hi]. by exists i, new.
  - intros Hno. rewrite Hr. by rewrite loop_ok_all.
Qed.

Lemma C3_witness :
  ∃ (first : N) (r : result unit) (w' : world) (evs : list event),
    get_next_id (py "projects") example_world = (Ok first, example_world)
    ∧ process_folder (py "projects") example_world = (r, w')
    ∧ w_trace w' = w_trace example_world ++ evs
    ∧ (∀ i old new, moves evs !! i = Some (old, new) →
         let next_id := first + N.of_nat i in
         let id_str := Dec.format_d 3 next_id in
         old ∈ Entries.names scenario_A
         ∧ Str.endswith old (py ".md") = true
         ∧ conforming old = false
         ∧ new = strftime_Ymd (w_dates example_world (w_tick example_world + i)%nat)
                 ++ py "-" ++ id_str ++ py "-" ++ clean_title old ++ py ".md"
         ∧ id_str = replicate (3 - length (Dec.decimal next_id)) "0"%char
                    ++ Dec.decimal next_id
         ∧ (3 <= length id_str)%nat
         ∧ (next_id < 1000 → length id_str = 3%nat)
         ∧ (1000 <= next_id → id_str = Dec.decimal next_id)
         ∧ Dec.int_of_digits id_str = Some next_id
         ∧ spec_conforming new next_id
         ∧ Re.match_valid new = Some id_str
         ∧ conforming new = true
         ∧ embedded_id new = Some next_id)
    ∧ (r = Ok tt →
       ∀ name, name ∈ Entries.names scenario_A → Str.endswith name (py ".md") = true →
         (∀ k, ¬ spec_conforming name k) →
         ∃ i new, moves evs !! i = Some (name, new))
    ∧ ((∀ old new, w_refuses example_world (py "projects") old new = false) → r = Ok tt).
Proof.
  apply (C3_new_name_conforming (py "projects") example_world scenario_A).
  - intros t. vm_compute. done.
  - vm_compute. reflexivity.
Defined.

(** C4. [clean_title] removes every occurrence of [.md], not only the
    trailing one: on [notes.mdown.md] it yields [notesown], where stripping
    the trailing suffix alone and applying the slug transform yields
    [notesmdown]. *)
Theorem C4_title_drops_every_md :
  needs_rename (py "notes.mdown.md") = true
  ∧ clean_title (py "notes.mdown.md") = py "notesown"
  ∧ spec_title (py "notes.mdown.md") = py "notesmdown"
  ∧ clean_title (py "notes.mdown.md") ≠ spec_title (py "notes.mdown.md").
Proof. vm_compute. by repeat split. Qed.

(** C5. In every run of the normaliser on a folder, whether it completes
    or is stopped by a move that fails, an entry whose name does not end
    in [.md], or matches the code's pattern, or is conforming and holds no
    line feed, is left as it is: the folder still holds it, with the same
    name and content, and no move of the run has it as source or as
    destination. Every other path of the file system is unchanged as
    well. *)
Theorem C5_conforming_and_non_md_untouched (folder : str) (w : world) (es : entries) :
  (∀ t, valid_date (w_dates w t)) →
  w_fs w !! folder = Some (Dir es) →
  ∃ (r : result unit) (w' : world) (evs : list event) (es' : entries),
    process_folder folder w = (r, w')
    ∧ w_trace w' = w_trace w ++ evs
    ∧ w_fs w' !! folder = Some (Dir es')
    ∧ (∀ other, other ≠ folder → w_fs w' !! other = w_fs w !! other)
    ∧ ∀ name x,
        (name, x) ∈ es →
        Str.endswith name (py ".md") = false
        ∨ conforming name = true
        ∨ ((Str.LF ∉ name) ∧ ∃ k, spec_conforming name k) →
        (name, x) ∈ es'
        ∧ ∀ old new, (old, new) ∈ moves evs → old ≠ name ∧ new ≠ name.
Proof.
  intros Hdates Hfs.
  destruct (process_folder_summary folder w es Hdates Hfs)
    as (r & w' & evs & Hrun & Hr & Htrace & _ & Hmoves & Hfs' & _).
  eexists r, w', evs, _. split; [done|]. split; [done|].
  split; [rewrite Hfs'; apply lookup_insert_eq|].
  split; [intros other Hne; rewrite Hfs'; by apply lookup_insert_ne|].
  intros name x Hin Hskip.
  assert (needs_rename name = false) as Hname.
  { unfold needs_rename. destruct Hskip as [-> | [-> | [Hlf [k Hk]]]];
      [done|by rewrite andb_false_r|].
    apply spec_conforming_embedded in Hk; [|done].
    assert (conforming name = true) as -> by (apply conforming_embedded; eauto).
    by rewrite andb_false_r. }
  split; [by apply relabel_kept|].
  intros old new Hmv. rewrite Hmoves in Hmv. apply moves_of_plan in Hmv as [id Hmv].
  apply carried_elem in Hmv.
  eapply planned_fresh in Hmv as (_ & _ & _ & Hnew & Hold & _);
    [|done|apply next_free_above].
  split; [intros ->; congruence|]. intros ->. apply Hnew.
  apply list_elem_of_fmap. by exists (name, x).
Qed.

Lemma C5_witness :
  ∃ (r : result unit) (w' : world) (evs : list event) (es' : entries),
    process_folder (py "projects") example_world = (r, w')
    ∧ w_trace w' = w_trace example_world ++ evs
    ∧ w_fs w' !! py "projects" = Some (Dir es')
    ∧ (∀ other, other ≠ py "projects" → w_fs w' !! other = w_fs example_world !! other)
    ∧ ∀ name x,
        (name, x) ∈ scenario_A →
        Str.endswith name (py ".md") = false
        ∨ conforming name = true
        ∨ ((Str.LF ∉ name) ∧ ∃ k, spec_conforming name k) →
        (name, x) ∈ es'
        ∧ ∀ old new, (old, new) ∈ moves evs → old ≠ name ∧ new ≠ name.
Proof.
  apply (C5_conforming_and_non_md_untouched (py "projects") example_world scenario_A).
  - intros t. vm_compute. done.
  - vm_compute. reflexivity.
Defined.

(** C5, as stated, fails on a conforming name that holds a line feed: the
    code's pattern does not match it and the run renames the file. *)
Lemma C5_counterexample :
  w_fs lf_world !! py "projects" = Some (Dir [(lf_name, File (py "n"))])
  ∧ spec_conforming lf_name 12
  ∧ process_folder (py "projects") lf_world
    = (Ok tt,
       World {[ py "projects" := Dir [(py "2026-11-04-001-2024-01-01-12-ab.md", File (py "n"))] ]}
             (fun _ => example_date) 1 name_too_long
             [Stdout (scanning_line (py "projects"));
              Stdout (renaming_line lf_name (py "2026-11-04-001-2024-01-01-12-ab.md"));
              Moved (py "projects") lf_name (py "2026-11-04-001-2024-01-01-12-ab.md")])
  ∧ lf_name ≠ py "2026-11-04-001-2024-01-01-12-ab.md".
Proof.
  split; [by vm_compute|]. split; [apply lf_name_spec|].
  split; [by vm_compute|]. by vm_compute.
Qed.

(** C6. While no folder raises, the orchestrator hands the folders to the
    normaliser one after the other; an exception raised by one folder
    leaves the orchestrator at once, with the world as that folder left it,
    and none of the later folders is processed. *)
Theorem C6_failure_aborts_later_folders (pre post : list str) (w w1 : world) :
  process_folders pre w = (Ok tt, w1) →
  process_folders (pre ++ post) w = process_folders post w1
  ∧ ∀ (folder : str) (e : exn) (w2 : world),
      process_folder folder w1 = (Raise e, w2) →
      process_folders (pre ++ folder :: post) w = (Raise e, w2).
Proof.
  intros Hpre. split; [by apply process_folders_app|].
  intros folder e w2 Hfail. rewrite (process_folders_app pre _ w w1) by done.
  cbn [process_folders]. by rewrite run_bind, Hfail.
Qed.

Lemma C6_witness :
  let w1 := (process_folders [py "templates"] blocked_world).2 in
  process_folders ([py "templates"] ++ [py "projects"; py "drafts"]) blocked_world
  = process_folders [py "projects"; py "drafts"] w1
  ∧ ∀ (folder : str) (e : exn) (w2 : world),
      process_folder folder w1 = (Raise e, w2) →
      process_folders ([py "templates"] ++ folder :: [py "projects"; py "drafts"]) blocked_world
      = (Raise e, w2).
Proof.
  apply (C6_failure_aborts_later_folders [py "templates"] [py "projects"; py "drafts"] blocked_world).
  vm_compute. reflexivity.
Defined.

(** C6, as stated, fails: [projects] is a regular file, listing it raises,
    and [templates] is never scanned although a run on it would rename
    [draft.md]. *)
Lemma C6_counterexample :
  main blocked_world
  = (Raise NotADirectoryError, emit (Stdout (scanning_line (py "projects"))) blocked_world)
  ∧ ¬ (∀ folder, folder ∈ TARGET_FOLDERS →
         Stdout (scanning_line folder) ∈ w_trace (main blocked_world).2)
  ∧ moves (w_trace (process_folder (py "templates") blocked_world).2)
    = [(py "draft.md", py "2026-11-04-001-draft.md")].
Proof.
  assert (main blocked_world
          = (Raise NotADirectoryError,
             emit (Stdout (scanning_line (py "projects"))) blocked_world)) as Hmain.
  { unfold main, TARGET_FOLDERS. cbn [process_folders]. rewrite run_bind.
    by rewrite (process_folder_file (py "projects") blocked_world (py "not a folder")). }
  split; [done|]. split.
  - intros H. specialize (H (py "templates")). rewrite Hmain in H.
    cbn [snd emit w_trace blocked_world app] in H.
    assert (py "templates" ∈ TARGET_FOLDERS) as Hin
      by (apply list_elem_of_further, list_elem_of_here).
    apply H, list_elem_of_singleton in Hin. discriminate Hin.
  - vm_compute. reflexivity.
Qed.

(** C7. The slug transform (lowercase, spaces to hyphens, drop what is not
    a lowercase letter, a digit or a hyphen) is idempotent, and so is the
    whole title cleaning, which removes [.md] first. *)
Theorem C7_slug_idempotent (s : str) :
  slug (slug s) = slug s
  ∧ clean_title (clean_title s) = clean_title s.
Proof.
  split; [apply slug_fixed, slug_chars|].
  unfold clean_title at 2 3. apply clean_title_fixed.
Qed.

(** C8. The trace of every run is, folder by folder in the order scanned,
    the message [Scanning <folder>...] followed, for each rename attempted
    in that folder, by the message [Renaming <old> -> <new>] and then the
    move it announces. The message of a rename is printed before the move
    is tried: a move that fails ends the run, and its message is the last
    one printed. So the messages are one per folder scanned, one per
    rename carried out, and one for the rename that failed, if any; a run
    that returns normally has no such rename. Each move recorded is a
    rename that took place: its destination is in the folder when the run
    ends. A message holds the folder path, or the old and the new name,
    and is a single line when these hold no line feed. *)
Theorem C8_one_line_per_folder_and_rename (folders : list str) (w : world) :
  (∀ t, valid_date (w_dates w t)) →
  ∃ log : list (str * list (str * str) * option (str * str)),
    let evs := log ≫= folder_events in
    w_trace (process_folders folders w).2 = w_trace w ++ evs
    ∧ log.*1.*1 `prefix_of` folders
    ∧ ((process_folders folders w).1 = Ok tt →
       log.*1.*1 = folders ∧ Forall (fun fr => fr.2 = None) log)
    ∧ (∀ i fr, log !! i = Some fr → is_Some fr.2 → S i = length log)
    ∧ stdout evs
      = log ≫= (fun fr => scanning_line fr.1.1
                          :: ((fun r => renaming_line r.1 r.2)
                                <$> (fr.1.2 ++ option_list fr.2)))
    ∧ moves evs = log ≫= (fun fr => fr.1.2)
    ∧ length (stdout evs)
      = (length log + length (moves evs) + length (omap snd log))%nat
    ∧ (∀ folder old new, Moved folder old new ∈ evs →
         ∃ es', w_fs (process_folders folders w).2 !! folder = Some (Dir es')
                ∧ new ∈ Entries.names es')
    ∧ (∀ fr, fr ∈ log → Str.LF ∉ fr.1.1 → lines_of (scanning_line fr.1.1) = 1%nat)
    ∧ (∀ fr old new, fr ∈ log → (old, new) ∈ fr.1.2 ∨ fr.2 = Some (old, new) →
         Str.LF ∉ old → lines_of (renaming_line old new) = 1%nat).
Proof.
  intros Hdates.
  destruct (process_folders_log folders w Hdates)
    as (log & Htr & Hpre & Hok & Hlast & Hfs & Hlf).
  exists log. cbn zeta. split; [done|]. split; [done|]. split; [done|].
  split; [done|]. split; [apply stdout_log|]. split; [apply moves_log|].
  split; [apply stdout_log_length|]. split; [|split].
  - intros folder old new (fr & Hin & <- & Hrs)%moved_log. by apply (Hfs fr old new).
  - intros fr _ Hf. by apply scanning_line_one.
  - intros fr old new Hin Hrs Hold. apply renaming_line_one; [done|].
    by apply (Hlf fr old new).
Qed.

Lemma C8_witness :
  ∃ log : list (str * list (str * str) * option (str * str)),
    let evs := log ≫= folder_events in
    w_trace (main example_world).2 = w_trace example_world ++ evs
    ∧ log.*1.*1 `prefix_of` TARGET_FOLDERS
    ∧ ((main example_world).1 = Ok tt →
       log.*1.*1 = TARGET_FOLDERS ∧ Forall (fun fr => fr.2 = None) log)
    ∧ (∀ i fr, log !! i = Some fr → is_Some fr.2 → S i = length log)
    ∧ stdout evs
      = log ≫= (fun fr => scanning_line fr.1.1
                          :: ((fun r => renaming_line r.1 r.2)
                                <$> (fr.1.2 ++ option_list fr.2)))
    ∧ moves evs = log ≫= (fun fr => fr.1.2)
    ∧ length (stdout evs)
      = (length log + length (moves evs) + length (omap snd log))%nat
    ∧ (∀ folder old new, Moved folder old new ∈ evs →
         ∃ es', w_fs (main example_world).2 !! folder = Some (Dir es')
                ∧ new ∈ Entries.names es')
    ∧ (∀ fr, fr ∈ log → Str.LF ∉ fr.1.1 → lines_of (scanning_line fr.1.1) = 1%nat)
    ∧ (∀ fr old new, fr ∈ log → (old, new) ∈ fr.1.2 ∨ fr.2 = Some (old, new) →
         Str.LF ∉ old → lines_of (renaming_line old new) = 1%nat).
Proof.
  apply (C8_one_line_per_folder_and_rename TARGET_FOLDERS example_world).
  intros t. vm_compute. done.
Defined.

(** C8, as stated, fails in two ways. A move that fails (here on a new
    name of 268 characters) comes after its message: the run prints two
    messages, scans one folder and renames nothing. And the message of a
    rename whose old name holds a line feed is two lines. *)
Lemma C8_counterexample :
  (w_fs long_world !! py "projects" = Some (Dir [(long_name, File (py "n"))])
   ∧ main long_world
     = (Raise OSError,
        World (w_fs long_world) (fun _ => example_date) 1 name_too_long
          [Stdout (scanning_line (py "projects"));
           Stdout (renaming_line long_name
                     (py "2026-11-04-001-" ++ replicate 250 "a"%char ++ py ".md"))])
   ∧ length (stdout (w_trace (main long_world).2)) = 2%nat
   ∧ moves (w_trace (main long_world).2) = []
   ∧ (2 ≠ 1 + 0)%nat)
  ∧ (stdout (w_trace (process_folder (py "projects") lf_world).2)
     = [scanning_line (py "projects");
        renaming_line lf_name (py "2026-11-04-001-2024-01-01-12-ab.md")]
     ∧ moves (w_trace (process_folder (py "projects") lf_world).2)
       = [(lf_name, py "2026-11-04-001-2024-01-01-12-ab.md")]
     ∧ lines_of (renaming_line lf_name (py "2026-11-04-001-2024-01-01-12-ab.md"))
       = 2%nat
     ∧ (1 + 2 ≠ 1 + 1)%nat).
Proof.
  split.
  - split; [by vm_compute|]. split; [by vm_compute|]. split; [by vm_compute|].
    split; [by vm_compute|]. lia.
  - split; [by vm_compute|]. split; [by vm_compute|]. split; [by vm_compute|]. lia.
Qed.







(** * Further properties of the scanner, the normaliser and [main] *)

(** X1. The pattern of [get_next_id] and [process_folder] accepts exactly
    the names made of four digits, two digits, two digits and a non-empty
    run of digits, each followed by a hyphen, then any characters but a
    line feed, then [.md], at the end of the name or before one final line
    feed; group 1 is the run of digits. *)
Theorem X1_pattern_accepts_exactly (filename g : str) :
  Re.match_valid filename = Some g ↔
  ∃ y m d t e,
    filename = y ++ py "-" ++ m ++ py "-" ++ d ++ py "-" ++ g ++ py "-"
               ++ t ++ py ".md" ++ e
    ∧ length y = 4%nat ∧ forallb Re.is_digit y = true
    ∧ length m = 2%nat ∧ forallb Re.is_digit m = true
    ∧ length d = 2%nat ∧ forallb Re.is_digit d = true
    ∧ g ≠ [] ∧ forallb Re.is_digit g = true
    ∧ forallb Re.is_dot t = true ∧ (e = [] ∨ e = [Str.LF]).
Proof. apply match_valid_shape. Qed.

(** X2. The value [get_next_id] returns for a folder depends only on the
    set of IDs embedded in its names: the order of the listing, repeated
    IDs and names that do not match make no difference. *)
Theorem X2_next_id_depends_on_id_set (p1 p2 : str) (w1 w2 : world) (es1 es2 : entries) :
  w_fs w1 !! p1 = Some (Dir es1) →
  w_fs w2 !! p2 = Some (Dir es2) →
  (∀ k, k ∈ omap embedded_id (Entries.names es1)
        ↔ k ∈ omap embedded_id (Entries.names es2)) →
  (get_next_id p1 w1).1 = (get_next_id p2 w2).1.
Proof.
  intros H1 H2 Hset.
  rewrite (get_next_id_dir p1 w1 es1), (get_next_id_dir p2 w2 es2) by done.
  cbn [fst]. f_equal.
  assert (∀ l1 l2 : list str,
            (∀ k, k ∈ omap embedded_id l1 → k ∈ omap embedded_id l2) →
            next_free l1 <= next_free l2) as Hle.
  { intros l1 l2 Hsub. apply next_free_least; [unfold next_free; lia|].
    intros name k Hin Hk.
    assert (k ∈ omap embedded_id l2) as (name' & Hin' & Hk')%list_elem_of_omap.
    { apply Hsub, list_elem_of_omap. eauto. }
    by apply (next_free_above l2 name'). }
  apply N.le_antisymm; apply Hle; intros k; apply Hset.
Qed.

Lemma X2_witness :
  (get_next_id (py "projects") example_world).1
  = (get_next_id (py "templates")
       (World {[ py "templates" :=
                   Dir [(py "draft.md", File []);
                        (py "1999-12-31-5-old.md", File []);
                        (py "2024-01-01-005-hello.md", File [])] ]}
              (fun _ => example_date) 0 name_too_long [])).1.
Proof.
  eapply (X2_next_id_depends_on_id_set (py "projects") (py "templates")).
  - vm_compute. reflexivity.
  - vm_compute. reflexivity.
  - intros k. vm_compute (omap _ _). rewrite !elem_of_cons. tauto.
Defined.

(** X3. [process_folder] has no effect beyond its [Scanning] line when the
    path is missing, when it is a regular file (the listing then raises
    [NotADirectoryError]), and when the folder holds no name that ends in
    [.md] without matching the pattern. *)
Theorem X3_nothing_to_rename_no_effect (folder : str) (w : world) :
  (∀ es name, w_fs w !! folder = Some (Dir es) →
     name ∈ Entries.names es → needs_rename name = false) →
  (process_folder folder w).2 = emit (Stdout (scanning_line folder)) w
  ∧ (process_folder folder w).1
    = match w_fs w !! folder with
      | Some (File _) => Raise NotADirectoryError
      | _ => Ok tt
      end.
Proof.
  intros Hall. destruct (w_fs w !! folder) as [[data|es]|] eqn:Hfs.
  - by rewrite (process_folder_file folder w data).
  - assert (process_folder folder w = (Ok tt, emit (Stdout (scanning_line folder)) w)) as ->;
      [|done].
    unfold process_folder.
    rewrite run_bind. cbn [print]. rewrite run_bind. unfold os.path_exists.
    cbn [emit w_fs]. rewrite Hfs, bool_decide_eq_true_2 by eauto. cbn [negb].
    rewrite run_bind, (get_next_id_dir folder _ es) by done.
    rewrite run_bind. unfold os.listdir. cbn [emit w_fs]. rewrite Hfs.
    rewrite run_bind, rename_loop_skip; [done|]. intros name. by apply Hall.
  - by rewrite process_folder_missing.
Qed.

Lemma X3_witness :
  (process_folder (py "projects") tidy_world).2
  = emit (Stdout (scanning_line (py "projects"))) tidy_world
  ∧ (process_folder (py "projects") tidy_world).1
    = match w_fs tidy_world !! py "projects" with
      | Some (File _) => Raise NotADirectoryError
      | _ => Ok tt
      end.
Proof.
  apply (X3_nothing_to_rename_no_effect (py "projects") tidy_world).
  intros es name Hes. vm_compute in Hes. injection Hes as <-.
  unfold Entries.names. cbn [fmap list_fmap fst].
  rewrite !elem_of_cons, elem_of_nil.
  intros [->|[->|[->|[]]]]; vm_compute; reflexivity.
Defined.

(** X4. Normalising a folder again right after a run that completed
    changes nothing: the second run prints its [Scanning] line, moves
    nothing and leaves the file system as the first run left it. *)
Theorem X4_second_run_renames_nothing (folder : str) (w : world) (es : entries) :
  (∀ t, valid_date (w_dates w t)) →
  w_fs w !! folder = Some (Dir es) →
  (process_folder folder w).1 = Ok tt →
  let w' := (process_folder folder w).2 in
  process_folder folder w' = (Ok tt, emit (Stdout (scanning_line folder)) w').
Proof.
  intros Hdates Hfs Hok w'. apply (process_folder_again folder w w' es); [done..|].
  unfold w'. rewrite <- Hok. by destruct (process_folder folder w).
Qed.

Lemma X4_witness :
  let w' := (process_folder (py "projects") example_world).2 in
  process_folder (py "projects") w'
  = (Ok tt, emit (Stdout (scanning_line (py "projects"))) w').
Proof.
  apply (X4_second_run_renames_nothing (py "projects") example_world scenario_A).
  - intros t. vm_compute. done.
  - vm_compute. reflexivity.
  - vm_compute. reflexivity.
Defined.





(** X7. The renames of a run, one by one: the [i]-th move takes the [i]-th
    name of the listing that passes both guards, gives it the ID
    [first + i], where [first] is what [get_next_id] returned, and builds
    the new name with the date read at that turn of the loop. The date is
    read once per rename attempted and not otherwise: once per move, and
    once more when the run is stopped by a move that fails. *)
Theorem X7_ith_rename (folder : str) (w : world) (es : entries) :
  (∀ t, valid_date (w_dates w t)) →
  w_fs w !! folder = Some (Dir es) →
  ∃ (first : N) (r : result unit) (w' : world) (evs : list event),
    get_next_id folder w = (Ok first, w)
    ∧ process_folder folder w = (r, w')
    ∧ w_trace w' = w_trace w ++ evs
    ∧ w_tick w' = (w_tick w + length (moves evs)
                   + match r with Ok _ => 0 | Raise _ => 1 end)%nat
    ∧ ∀ i old new,
        moves evs !! i = Some (old, new) →
        List.filter needs_rename (Entries.names es) !! i = Some old
        ∧ new = new_filename (strftime_Ymd (w_dates w (w_tick w + i)%nat))
                  (first + N.of_nat i) old.
Proof.
  intros Hdates Hfs.
  destruct (process_folder_summary folder w es Hdates Hfs)
    as (r & w' & evs & Hrun & Hr & Htrace & _ & Hmoves & _ & _ & _ & Htick).
  exists (next_free (Entries.names es)), r, w', evs.
  split; [by apply get_next_id_dir|]. split; [done|]. split; [done|].
  rewrite Hmoves, length_fmap. split.
  - rewrite Htick, loop_ticks_eq, Hr. destruct (loop_ok _ _); lia.
  - intros i old new [-> Hold]%carried_move_lookup. done.
Qed.

Lemma X7_witness :
  ∃ (first : N) (r : result unit) (w' : world) (evs : list event),
    get_next_id (py "templates") two_folder_world = (Ok first, two_folder_world)
    ∧ process_folder (py "templates") two_folder_world = (r, w')
    ∧ w_trace w' = w_trace two_folder_world ++ evs
    ∧ w_tick w' = (w_tick two_folder_world + length (moves evs)
                   + match r with Ok _ => 0 | Raise _ => 1 end)%nat
    ∧ ∀ i old new,
        moves evs !! i = Some (old, new) →
        List.filter needs_rename
          (Entries.names [(py "Weekly Report.md", File (py "r"));
                          (py "2025-03-09-41-plan.md", File [])]) !! i = Some old
        ∧ new = new_filename
                  (strftime_Ymd (w_dates two_folder_world (w_tick two_folder_world + i)%nat))
                  (first + N.of_nat i) old.
Proof.
  apply (X7_ith_rename (py "templates") two_folder_world).
  - intros [|t]; vm_compute; done.
  - vm_compute. reflexivity.
Defined.

(** X8. In a folder whose names are distinct, a file that a run moves
    keeps its content under its new name, and its old name is gone from
    the folder; when the run completes, this holds of every file that
    passes both guards, and the move from its old to its new name is
    recorded. *)
Theorem X8_renamed_file_keeps_content (folder : str) (w : world) (es : entries) :
  (∀ t, valid_date (w_dates w t)) →
  w_fs w !! folder = Some (Dir es) →
  NoDup (Entries.names es) →
  ∃ (r : result unit) (w' : world) (evs : list event) (es' : entries),
    process_folder folder w = (r, w')
    ∧ w_trace w' = w_trace w ++ evs
    ∧ w_fs w' !! folder = Some (Dir es')
    ∧ (∀ old new x, (old, new) ∈ moves evs → (old, x) ∈ es →
         (new, x) ∈ es' ∧ old ∉ Entries.names es')
    ∧ (r = Ok tt →
       ∀ old x, (old, x) ∈ es → needs_rename old = true →
         (old ∉ Entries.names es')
         ∧ ∃ new, (new, x) ∈ es' ∧ (old, new) ∈ moves evs).
Proof.
  intros Hdates Hfs Hnd.
  destruct (process_folder_summary folder w es Hdates Hfs)
    as (r & w' & evs & Hrun & Hr & Htrace & _ & Hmoves & Hfs' & _).
  eexists r, w', evs, _. split; [done|]. split; [done|].
  split; [rewrite Hfs'; apply lookup_insert_eq|].
  assert (∀ old new x,
            (old, new) ∈ (fun p : str * N * str => (p.1.1, p.2))
              <$> carried (w_refuses w folder)
                    (planned (w_dates w) (w_tick w) (Entries.names es)
                       (next_free (Entries.names es))) →
            (old, x) ∈ es →
            (new, x) ∈ relabel (w_refuses w folder) (w_dates w) (w_tick w) es
                         (next_free (Entries.names es))
            ∧ old ∉ Entries.names
                      (relabel (w_refuses w folder) (w_dates w) (w_tick w) es
                         (next_free (Entries.names es)))) as Hmoved.
  { intros old new x [id Hmv]%moves_of_plan Hin.
    by apply (relabel_moved _ (w_dates w) Hdates es (w_tick w) _ old id new x). }
  rewrite Hmoves. split; [done|].
  intros Hok old x Hin Hold. rewrite Hr in Hok.
  destruct (loop_ok _ _) eqn:Hl; [|done].
  assert (old ∈ Entries.names es) as Hname
    by (apply list_elem_of_fmap; by exists (old, x)).
  destruct (carried_complete _ (w_dates w) (Entries.names es) (w_tick w)
              (next_free (Entries.names es)) old Hl Hname Hold) as [new Hnew].
  destruct (Hmoved old new x Hnew Hin) as [Hx Hgone]. split; [done|]. by exists new.
Qed.

Lemma X8_witness :
  ∃ (r : result unit) (w' : world) (evs : list event) (es' : entries),
    process_folder (py "projects") example_world = (r, w')
    ∧ w_trace w' = w_trace example_world ++ evs
    ∧ w_fs w' !! py "projects" = Some (Dir es')
    ∧ (∀ old new x, (old, new) ∈ moves evs → (old, x) ∈ scenario_A →
         (new, x) ∈ es' ∧ old ∉ Entries.names es')
    ∧ (r = Ok tt →
       ∀ old x, (old, x) ∈ scenario_A → needs_rename old = true →
         (old ∉ Entries.names es')
         ∧ ∃ new, (new, x) ∈ es' ∧ (old, new) ∈ moves evs).
Proof.
  apply (X8_renamed_file_keeps_content (py "projects") example_world scenario_A).
  - intros t. vm_compute. done.
  - vm_compute. reflexivity.
  - apply (bool_decide_unpack _). by vm_compute.
Defined.
(** X9. Whatever the old name, the new name is made of lowercase letters,
    digits, hyphens and the one full stop of [.md]: it holds no space, no
    slash, no line feed and no capital. *)
Theorem X9_new_name_alphabet (today : date) (next_id : N) (filename : str) :
  let new := new_filename (strftime_Ymd today) next_id filename in
  Forall (fun c => Re.is_slug_char c = true ∨ c = "."%char) new
  ∧ (" "%char ∉ new) ∧ ("/"%char ∉ new) ∧ (Str.LF ∉ new)
  ∧ Str.lower new = new.
Proof.
  intros new.
  set (ok := fun c => Re.is_slug_char c || Ascii.eqb c "."%char).
  assert (∀ s, forallb Re.is_digit s = true → forallb ok s = true) as Hdig.
  { intros s Hs. rewrite forallb_forall in *. intros c Hc. unfold ok.
    by rewrite digit_slug_char by by apply Hs. }
  assert (forallb ok (clean_title filename) = true) as Htitle.
  { pose proof (slug_chars (Str.replace filename (py ".md") [])) as Hs.
    rewrite forallb_forall in *. intros c Hc. unfold ok.
    by rewrite (Hs c Hc). }
  assert (forallb ok new = true) as Hok.
  { unfold new, new_filename, strftime_Ymd.
    rewrite !forallb_app, Htitle.
    rewrite (Hdig (Dec.format_d 4 (year today))) by apply format_d_digits.
    rewrite (Hdig (Dec.format_d 2 (month today))) by apply format_d_digits.
    rewrite (Hdig (Dec.format_d 2 (day today))) by apply format_d_digits.
    rewrite (Hdig (Dec.format_d 3 next_id)) by apply format_d_digits.
    reflexivity. }
  assert (∀ c, c ∈ new → Re.is_slug_char c = true ∨ c = "."%char) as Hall.
  { intros c Hc%list_elem_of_In. rewrite forallb_forall in Hok.
    specialize (Hok c Hc). unfold ok in Hok.
    apply orb_prop in Hok as [?|?%Ascii.eqb_eq]; auto. }
  split; [by apply Forall_forall|].
  split; [intros [H|H]%Hall; discriminate H|].
  split; [intros [H|H]%Hall; discriminate H|].
  split; [intros [H|H]%Hall; discriminate H|].
  unfold Str.lower. rewrite <- (list_fmap_id new) at 2.
  apply list_fmap_ext. intros i c Hc%list_elem_of_lookup_2.
  destruct (Hall c Hc) as [H| ->]; [by apply slug_char_fixed|done].
Qed.

(** X10. The slug transform works character by character: the slug of a
    concatenation is the concatenation of the slugs, and a run of spaces
    becomes a run of hyphens of the same length, none being merged. *)
Theorem X10_slug_character_wise (a b : str) (n : nat) :
  slug (a ++ b) = slug a ++ slug b
  ∧ slug (replicate n " "%char) = replicate n "-"%char
  ∧ (length (slug a) <= length a)%nat.
Proof.
  rewrite !slug_eq. split; [|split].
  - by rewrite !List.map_app, List.filter_app.
  - induction n as [|n IH]; [done|]. cbn [replicate map].
    change (Str.lower_char " "%char) with " "%char.
    rewrite decide_True by done. cbn [List.filter].
    change (Re.is_slug_char "-"%char) with true. cbn iota. by rewrite IH.
  - etransitivity; [apply List.filter_length_le|]. by rewrite !length_map.
Qed.

(** X11. For a name in which [.md] occurs only as the suffix, the title is
    the slug of the name without that suffix. *)
Theorem X11_title_is_slug_of_stem (stem : str) :
  (∀ a b, stem ≠ a ++ py ".md" ++ b) →
  clean_title (stem ++ py ".md") = slug stem.
Proof.
  intros Hocc. unfold clean_title. by rewrite replace_md_suffix_only.
Qed.

Lemma X11_witness : clean_title (py "My Notes" ++ py ".md") = slug (py "My Notes").
Proof.
  apply (X11_title_is_slug_of_stem (py "My Notes")).
  intros a b H.
  assert ("."%char ∈ py "My Notes") as Hin.
  { rewrite H, !elem_of_app. right. left. apply list_elem_of_here. }
  apply list_elem_of_In in Hin. cbn in Hin.
  repeat (destruct Hin as [Hin|Hin]; [discriminate Hin|]). exact Hin.
Defined.



(** X13. Nothing is rolled back: when [projects] is a folder and
    [templates] a regular file, [main] ends with an exception, and the
    world it leaves is the one the run on [projects] produced, with the
    [Scanning] line of [templates] added when that run completed; the
    exception is then [NotADirectoryError], and otherwise the one that
    stopped the run on [projects]. The renames carried out stay. *)
Theorem X13_main_keeps_finished_renames (w : world) (es : entries) (data : str) :
  (∀ t, valid_date (w_dates w t)) →
  w_fs w !! py "projects" = Some (Dir es) →
  w_fs w !! py "templates" = Some (File data) →
  ∃ (r1 : result unit) (w1 : world),
    process_folder (py "projects") w = (r1, w1)
    ∧ main w
      = match r1 with
        | Ok _ => (Raise NotADirectoryError,
                   emit (Stdout (scanning_line (py "templates"))) w1)
        | Raise e => (Raise e, w1)
        end
    ∧ moves (w_trace (main w).2) = moves (w_trace w1)
    ∧ w_fs (main w).2 = w_fs w1.
Proof.
  intros Hdates H1 H2.
  destruct (process_folder_summary (py "projects") w es Hdates H1)
    as (r1 & w1 & evs1 & Hrun1 & _ & _ & _ & _ & Hfs1 & _).
  assert (w_fs w1 !! py "templates" = Some (File data)) as H2'.
  { rewrite Hfs1, lookup_insert_ne by apply targets_distinct. done. }
  assert (main w = match r1 with
                   | Ok _ => (Raise NotADirectoryError,
                              emit (Stdout (scanning_line (py "templates"))) w1)
                   | Raise e => (Raise e, w1)
                   end) as Hmain.
  { rewrite main_unfold, Hrun1. destruct r1 as [[]|e]; [|done].
    by rewrite (process_folder_file _ w1 data). }
  exists r1, w1. split; [done|]. split; [done|].
  rewrite Hmain. destruct r1 as [[]|e]; [|done].
  cbn [snd emit w_trace w_fs]. unfold moves.
  by rewrite omap_app, app_nil_r.
Qed.

Lemma X13_witness :
  ∃ (r1 : result unit) (w1 : world),
    process_folder (py "projects") half_blocked_world = (r1, w1)
    ∧ main half_blocked_world
      = match r1 with
        | Ok _ => (Raise NotADirectoryError,
                   emit (Stdout (scanning_line (py "templates"))) w1)
        | Raise e => (Raise e, w1)
        end
    ∧ moves (w_trace (main half_blocked_world).2) = moves (w_trace w1)
    ∧ w_fs (main half_blocked_world).2 = w_fs w1.
Proof.
  apply (X13_main_keeps_finished_renames half_blocked_world scenario_A (py "not a folder")).
  - intros t. vm_compute. done.
  - vm_compute. reflexivity.
  - vm_compute. reflexivity.
Defined.
